(** * Provider adapters of the Apex ingestion platform

    A shallow embedding of [app/integrations/base.py],
    [app/integrations/google.py] and [app/integrations/microsoft.py].

    The adapters are coroutines that talk to an upstream provider.  The
    provider is modelled as a finite _script_ of replies: every request the
    adapter issues consumes the next reply of the script, and the adapter's
    run yields the list of requests it issued together with its outcome
    (a returned value, a raised exception, or [Awaiting] when the script
    ends while the adapter still waits for a reply).

    Provider payloads are the JSON objects of the provider's schema, as
    records whose optional keys are [option]s.  A character of a [string]
    stands for the Unicode code point of the same number. *)

From Stdlib Require Import List String Ascii Bool ZArith Lia DecimalString.
Import ListNotations.

#[local] Set Warnings "-register-all".
#[local] Open Scope string_scope.
#[local] Open Scope list_scope.

(** ** Python values *)

Module Py.

(** Truth value of a [str | None]: [None] and the empty string are falsy. *)
Definition truthy (o : option string) : bool :=
  match o with
  | Some s => negb (s =? "")%string
  | None => false
  end.

(** [str(n)] for an integer. *)
Definition str_int (n : Z) : string := NilZero.string_of_int (Z.to_int n).

(** [c.isspace()], on the code points up to U+00FF. *)
Definition isspace (c : ascii) : bool :=
  let n := nat_of_ascii c in
  (((9 <=? n) && (n <=? 13)) || ((28 <=? n) && (n <=? 32))
   || (n =? 133) || (n =? 160))%nat.

Fixpoint lstrip (s : string) : string :=
  match s with
  | EmptyString => EmptyString
  | String c s' => if isspace c then lstrip s' else s
  end.

(** [rstrip] keeps a character when it is not a space or when something
    survives to its right. *)
Fixpoint rstrip (s : string) : string :=
  match s with
  | EmptyString => EmptyString
  | String c s' =>
      match rstrip s' with
      | EmptyString => if isspace c then EmptyString else String c EmptyString
      | r => String c r
      end
  end.

(** [s.strip()] *)
Definition strip (s : string) : string := rstrip (lstrip s).

(** A dict with string keys, in insertion order; [d[k] = v] replaces the
    value of an existing key in place. *)
Definition dict (V : Type) : Type := list (string * V).

Fixpoint setitem {V} (d : dict V) (k : string) (v : V) : dict V :=
  match d with
  | [] => [(k, v)]
  | (k', v') :: d' =>
      if (k' =? k)%string then (k, v) :: d' else (k', v') :: setitem d' k v
  end.

Fixpoint get {V} (d : dict V) (k : string) : option V :=
  match d with
  | [] => None
  | (k', v) :: d' => if (k' =? k)%string then Some v else get d' k
  end.

End Py.

(** ** base.py *)

Module Base.

(** [IntegrationException(message, provider, operation=None)]: the message
    goes to [Exception.__init__], the two tags become attributes. *)
Record IntegrationException : Type := {
  message : string;
  provider : string;
  operation : option string;
}.

(** The exceptions the adapters meet.  [text] is what [str(e)] gives. *)
Inductive PyExc : Type :=
| HttpError (status : Z) (text : string)
    (* googleapiclient.errors.HttpError, [e.resp.status] *)
| HTTPStatusError (status_code : Z) (text : string)
    (* httpx.HTTPStatusError, [e.response.status_code] *)
| KeyError (key : string)
| Integration (e : IntegrationException)
| OtherException (text : string).

Definition str (e : PyExc) : string :=
  match e with
  | HttpError _ text => text
  | HTTPStatusError _ text => text
  | KeyError key => "'" ++ key ++ "'"
  | Integration e => message e
  | OtherException text => text
  end%string.

(** The instance attributes [__init__] sets on an exception object, and
    [getattr] on them ([None]: the attribute does not exist). *)
Definition attributes (e : PyExc) : Py.dict (option string) :=
  match e with
  | Integration e =>
      [("provider", Some (provider e)); ("operation", operation e)]
  | _ => []
  end.

Definition getattr (e : PyExc) (name : string) : option (option string) :=
  Py.get (attributes e) name.

(** A computation that returns or raises. *)
Inductive Result (A : Type) : Type :=
| Ok (a : A)
| Err (e : PyExc).
Arguments Ok {A} a.
Arguments Err {A} e.

Definition bind {A B} (r : Result A) (k : A -> Result B) : Result B :=
  match r with
  | Ok a => k a
  | Err e => Err e
  end.

(** [d[key]] on an optional key. *)
Definition getitem {A} (key : string) (o : option A) : Result A :=
  match o with
  | Some a => Ok a
  | None => Err (KeyError key)
  end.

(** How a run of an adapter operation ends. *)
Inductive Outcome (A : Type) : Type :=
| Returned (a : A)
| Raised (e : PyExc)
| Awaiting.
Arguments Returned {A} a.
Arguments Raised {A} e.
Arguments Awaiting {A}.

Definition of_result {A} (r : Result A) : Outcome A :=
  match r with
  | Ok a => Returned a
  | Err e => Raised e
  end.

(** [except Exception as e: raise IntegrationException(f"{prefix}{str(e)}",
    provider=..., operation=...)] around a body. *)
Definition translate {A} (prefix prov op : string) (o : Outcome A)
  : Outcome A :=
  match o with
  | Raised e =>
      Raised (Integration {| message := (prefix ++ str e)%string;
                             provider := prov;
                             operation := Some op |})
  | _ => o
  end.

(** A normalised identifier and contact, as both adapters build them:
    [{"type": ..., "value": ...}] and [{"id": ..., "name": ...,
    "identifiers": [...]}] (the ["name"] key may be absent). *)
Record Identifier : Type := {
  id_type : string;
  id_value : option string;
}.

Record Contact : Type := {
  contact_id : option string;
  contact_name : option (option string);
  identifiers : list Identifier;
}.

(** The invariant of a contact: it has an identifier to link it by. *)
Definition linkable (c : Contact) : Prop := identifiers c <> [].

End Base.

Export Base.

Declare Scope result_scope.
Delimit Scope result_scope with result.
Notation "x <- r ;; k" := (bind r (fun x => k))
  (at level 61, r at next level, right associativity) : result_scope.

(** ** google.py *)

Module Google.

Definition provider_name : string := "google_workspace".

(** *** People API: contacts *)

Record Name : Type := { displayName : option string }.
Record FieldValue : Type := { value : option string }.

Record Person : Type := {
  resourceName : option string;
  names : list Name;
  emailAddresses : list FieldValue;
  phoneNumbers : list FieldValue;
}.

(** The keyword arguments [params] of [people().connections().list]. *)
Record ListParams : Type := {
  p_resourceName : string;
  p_pageSize : Z;
  p_personFields : string;
  p_syncToken : option string;
  p_pageToken : option string;
  p_requestSyncToken : option bool;
}.

Record ListResponse : Type := {
  connections : list Person;
  nextPageToken : option string;
  nextSyncToken : option string;
}.

Definition _parse_google_contact (connection : Person) : option Contact :=
  let name :=
    match names connection with
    | [] => None
    | n :: _ => Some (displayName n)
    end in
  let ids :=
    map (fun email => {| id_type := "email"; id_value := value email |})
        (emailAddresses connection)
    ++ map (fun phone => {| id_type := "phone"; id_value := value phone |})
           (phoneNumbers connection) in
  match ids with
  | [] => None
  | _ => Some {| contact_id := resourceName connection;
                 contact_name := name;
                 identifiers := ids |}
  end.

(** The [if sync_token: ... elif next_page_token: ... else: ...] chain. *)
Definition build_params (sync_token next_page_token : option string)
  : ListParams :=
  let base st pt rst :=
    {| p_resourceName := "people/me";
       p_pageSize := 100;
       p_personFields := "names,emailAddresses,phoneNumbers,metadata";
       p_syncToken := st; p_pageToken := pt; p_requestSyncToken := rst |} in
  if Py.truthy sync_token then base sync_token None None
  else if Py.truthy next_page_token then base None next_page_token None
  else base None None (Some true).

(** [for connection in response.get("connections", []): ...] *)
Definition process_connections (contacts : list Contact)
    (conns : list Person) : list Contact :=
  fold_left
    (fun acc connection =>
       match _parse_google_contact connection with
       | Some contact_data => acc ++ [contact_data]
       | None => acc
       end)
    conns contacts.

Definition is_gone (e : PyExc) : bool :=
  match e with
  | HttpError status _ => (status =? 410)%Z
  | _ => false
  end.

Definition contacts_prefix : string := "Failed to fetch contacts: ".

(** The [while True] loop of [get_contacts], inside the outer [try].  On a
    410 with a truthy [sync_token] the method calls itself with
    [sync_token=None]; the callee's own [except] has already translated
    whatever it raises. *)
Fixpoint contacts_loop (sync_token next_page_token : option string)
    (contacts : list Contact) (script : list (Result ListResponse))
  : list ListParams * Outcome (list Contact * option string) :=
  let params := build_params sync_token next_page_token in
  match script with
  | [] => ([params], Awaiting)
  | Err e :: script' =>
      if is_gone e && Py.truthy sync_token then
        let (reqs, out) := contacts_loop None None [] script' in
        (params :: reqs,
         translate contacts_prefix provider_name "get_contacts" out)
      else ([params], Raised e)
  | Ok response :: script' =>
      let contacts' := process_connections contacts (connections response) in
      if Py.truthy (nextPageToken response) then
        let (reqs, out) :=
          contacts_loop sync_token (nextPageToken response) contacts' script'
        in (params :: reqs, out)
      else ([params], Returned (contacts', nextSyncToken response))
  end.

Definition get_contacts (sync_token : option string)
    (script : list (Result ListResponse))
  : list ListParams * Outcome (list Contact * option string) :=
  let (reqs, out) := contacts_loop sync_token None [] script in
  (reqs, translate contacts_prefix provider_name "get_contacts" out).

(** *** Gmail: one message *)

Record Header : Type := {
  h_name : option string;
  h_value : option string;
}.

Record PartBody : Type := { data : option string }.

(** A message part: the payload and, recursively, its [parts]. *)
Inductive MessagePart : Type := {
  filename : option string;
  mimeType : option string;
  body : option PartBody;
  headers : list Header;
  parts : option (list MessagePart);
}.

Record Message : Type := {
  message_id : option string;
  threadId : option string;
  payload : option MessagePart;
  labelIds : list string;
}.

(** The dict [_parse_gmail_message] returns. *)
Record Email : Type := {
  e_id : string;
  e_thread_id : option string;
  e_from : option string;
  e_to : option string;
  e_subject : option string;
  e_date : option string;
  e_body : string;
  e_labels : list string;
  e_has_attachments : bool;
}.

(** [part.get("filename") and part["filename"].strip()] *)
Definition names_a_file (part : MessagePart) : bool :=
  Py.truthy (filename part)
  && Py.truthy (option_map Py.strip (filename part)).

(** [for part in message["payload"]["parts"]: if ...: has_attachments =
    True; break] *)
Fixpoint scan_parts (ps : list MessagePart) : bool :=
  match ps with
  | [] => false
  | part :: ps' => if names_a_file part then true else scan_parts ps'
  end.

(** The specification's reading of an attachment: some part below the
    payload, at any depth, carries a non-empty filename. *)
Fixpoint carries_filename (part : MessagePart) : bool :=
  Py.truthy (filename part)
  || match parts part with
     | Some ps => existsb carries_filename ps
     | None => false
     end.

Definition subpart_carries_filename (pl : MessagePart) : bool :=
  match parts pl with
  | Some ps => existsb carries_filename ps
  | None => false
  end.

(** [{h["name"]: h["value"] for h in headers}] *)
Fixpoint header_dict_of (hs : list Header) (d : Py.dict string)
  : Result (Py.dict string) :=
  match hs with
  | [] => Ok d
  | h :: hs' =>
      (name <- getitem "name" (h_name h) ;;
       v <- getitem "value" (h_value h) ;;
       header_dict_of hs' (Py.setitem d name v))%result
  end.

(** [users().messages().get(userId="me", id=email_id, format="full")] *)
Record MessageGet : Type := {
  mg_userId : string;
  mg_id : string;
  mg_format : string;
}.

Section Gmail.

(** [base64.urlsafe_b64decode(data).decode("utf-8")], of the standard
    library; it raises on malformed input. *)
Variable b64decode_utf8 : string -> Result string.

(** The [for part in payload["parts"]] loop of [_extract_message_body]. *)
Fixpoint body_of_parts (acc : string) (ps : list MessagePart)
  : Result string :=
  match ps with
  | [] => Ok acc
  | part :: ps' =>
      (mt <- getitem "mimeType" (mimeType part) ;;
       if (mt =? "text/plain")%string then
         b <- getitem "body" (body part) ;;
         if Py.truthy (data b) then
           d <- getitem "data" (data b) ;;
           txt <- b64decode_utf8 d ;;
           body_of_parts (acc ++ txt)%string ps'
         else body_of_parts acc ps'
       else body_of_parts acc ps')%result
  end.

Definition _extract_message_body (pl : MessagePart) : Result string :=
  match parts pl with
  | Some ps => body_of_parts "" ps
  | None =>
      (b <- getitem "body" (body pl) ;;
       if Py.truthy (data b) then
         d <- getitem "data" (data b) ;;
         b64decode_utf8 d
       else Ok "")%result
  end.

Definition _parse_gmail_message (message : Message) : Result Email :=
  (pl <- getitem "payload" (payload message) ;;
   header_dict <- header_dict_of (headers pl) [] ;;
   txt <- _extract_message_body pl ;;
   let has_attachments :=
     match parts pl with
     | Some ps => scan_parts ps
     | None => false
     end in
   i <- getitem "id" (message_id message) ;;
   Ok {| e_id := i;
         e_thread_id := threadId message;
         e_from := Py.get header_dict "From";
         e_to := Py.get header_dict "To";
         e_subject := Py.get header_dict "Subject";
         e_date := Py.get header_dict "Date";
         e_body := txt;
         e_labels := labelIds message;
         e_has_attachments := has_attachments |})%result.

Definition get_email_content (email_id : string)
    (script : list (Result Message)) : list MessageGet * Outcome Email :=
  ([{| mg_userId := "me"; mg_id := email_id; mg_format := "full" |}],
   translate "Failed to fetch email: " provider_name "get_email_content"
     match script with
     | [] => Awaiting
     | reply :: _ =>
         of_result (message <- reply ;; _parse_gmail_message message)%result
     end).

End Gmail.

(** *** Calendar: one event *)

Record Attendee : Type := { email : option string }.

Record EventTime : Type := {
  dateTime : option string;
  timeZone : option string;
}.

Record Event : Type := {
  event_id : option string;
  summary : option string;
  description : option string;
  location : option string;
  start : option EventTime;
  end_ : option EventTime;
  attendees : list Attendee;
  organizer : option Attendee;
  status : option string;
  recurringEventId : option string;
  eventType : option string;
  conferenceData : option string;
}.

Record CalendarEvent : Type := {
  ce_id : string;
  ce_summary : option string;
  ce_description : option string;
  ce_location : option string;
  ce_start : option EventTime;
  ce_end : option EventTime;
  ce_attendees : list (option string);
  ce_organizer : option string;
  ce_status : option string;
  ce_isRecurring : bool;
  ce_eventType : option string;
  ce_isOnlineMeeting : bool;
}.

Definition is_some {A} (o : option A) : bool :=
  match o with Some _ => true | None => false end.

Definition parse_event (event : Event) : Result CalendarEvent :=
  (i <- getitem "id" (event_id event) ;;
   Ok {| ce_id := i;
         ce_summary := summary event;
         ce_description := description event;
         ce_location := location event;
         ce_start := start event;
         ce_end := end_ event;
         ce_attendees := map email (attendees event);
         ce_organizer :=
           match organizer event with
           | Some o => email o
           | None => None
           end;
         ce_status := status event;
         ce_isRecurring := is_some (recurringEventId event);
         ce_eventType := eventType event;
         ce_isOnlineMeeting := is_some (conferenceData event) |})%result.

(** [events().get(calendarId="primary", eventId=event_id)] *)
Record EventGet : Type := {
  eg_calendarId : string;
  eg_eventId : string;
}.

Definition get_calendar_event (event_id : string)
    (script : list (Result Event)) : list EventGet * Outcome CalendarEvent :=
  ([{| eg_calendarId := "primary"; eg_eventId := event_id |}],
   translate "Failed to fetch event: " provider_name "get_calendar_event"
     match script with
     | [] => Awaiting
     | reply :: _ => of_result (event <- reply ;; parse_event event)%result
     end).

(** *** Watches *)

(** [app.config.settings], as far as the adapter reads it. *)
Record Settings : Type := {
  GCP_PROJECT_ID : string;
  PUBSUB_TOPIC : string;
}.

Record GmailWatchBody : Type := {
  topicName : string;
  watch_labelIds : list string;
  labelFilterAction : string;
}.

Record CalendarWatchBody : Type := {
  channel_id : string;
  channel_type : string;
  address : string;
  params_userId : string;
}.

Inductive WatchRequest : Type :=
| GmailWatch (userId : string) (b : GmailWatchBody)
| CalendarWatch (calendarId : string) (b : CalendarWatchBody).

(** What either [watch(...).execute()] answers; the adapter reads it with
    [.get] only. *)
Record WatchResponse : Type := {
  w_historyId : option string;
  w_expiration : option string;
  w_id : option string;
  w_resourceId : option string;
}.

Record GmailSubscription : Type := {
  historyId : option string;
  gmail_expiration : option string;
}.

Record CalendarSubscription : Type := {
  channelId : option string;
  resourceId : option string;
  calendar_expiration : option string;
}.

(** [{"gmail": {...}, "calendar": {...}}] *)
Record Subscriptions : Type := {
  gmail : GmailSubscription;
  calendar : CalendarSubscription;
}.

Section Watches.

Variable settings : Settings.

(** [str(uuid.uuid4())], the value drawn during the call. *)
Variable uuid4 : string.

Definition gmail_watch_request : WatchRequest :=
  GmailWatch "me"
    {| topicName := "projects/" ++ GCP_PROJECT_ID settings
                    ++ "/topics/" ++ PUBSUB_TOPIC settings;
       watch_labelIds := ["INBOX"];
       labelFilterAction := "include" |}%string.

Definition calendar_watch_request (user_id : string) : WatchRequest :=
  CalendarWatch "primary"
    {| channel_id := uuid4;
       channel_type := "web_hook";
       address := "https://pubsub.googleapis.com/v1/projects/"
                  ++ GCP_PROJECT_ID settings ++ "/topics/"
                  ++ PUBSUB_TOPIC settings ++ ":publish";
       params_userId := user_id |}%string.

(** The body of [subscribe_to_realtime_events]: the Gmail watch, then
    the Calendar watch. *)
Definition watch_both (user_id : string)
    (script : list (Result WatchResponse))
  : list WatchRequest * Outcome Subscriptions :=
  match script with
  | [] => ([gmail_watch_request], Awaiting)
  | Err e :: _ => ([gmail_watch_request], Raised e)
  | Ok gmail_watch :: script' =>
      let reqs := [gmail_watch_request; calendar_watch_request user_id] in
      match script' with
      | [] => (reqs, Awaiting)
      | Err e :: _ => (reqs, Raised e)
      | Ok calendar_watch :: _ =>
          (reqs,
           Returned
             {| gmail :=
                  {| historyId := w_historyId gmail_watch;
                     gmail_expiration := w_expiration gmail_watch |};
                calendar :=
                  {| channelId := w_id calendar_watch;
                     resourceId := w_resourceId calendar_watch;
                     calendar_expiration := w_expiration calendar_watch |}
             |})
      end
  end.

Definition subscribe_to_realtime_events (user_id : string)
    (notification_url : option string)
    (script : list (Result WatchResponse))
  : list WatchRequest * Outcome Subscriptions :=
  let (reqs, out) := watch_both user_id script in
  (reqs,
   translate "Failed to subscribe: " provider_name
     "subscribe_to_realtime_events" out).

(** [return await self.subscribe_to_realtime_events(subscription_id,
    None)] *)
Definition renew_subscription (subscription_id expiration_date : string)
    (script : list (Result WatchResponse))
  : list WatchRequest * Outcome Subscriptions :=
  subscribe_to_realtime_events subscription_id None script.

End Watches.

End Google.


(** ** microsoft.py *)

Module Microsoft.

Definition provider_name : string := "microsoft_365".

Definition GRAPH_BASE_URL : string := "https://graph.microsoft.com/v1.0".

(** The two handlers of the Graph methods: [except httpx.HTTPStatusError]
    reports the status code, [except Exception] reports [str(e)]. *)
Definition translate_http {A} (prefix op : string) (o : Outcome A)
  : Outcome A :=
  match o with
  | Raised (HTTPStatusError status_code _) =>
      Raised (Integration
                {| message := (prefix ++ "HTTP " ++ Py.str_int status_code)%string;
                   provider := provider_name;
                   operation := Some op |})
  | _ => translate prefix provider_name op o
  end.

(** *** Contacts *)

Record EmailAddress : Type := { address : option string }.

(** What [contact.get(phone_type)] finds: nothing, a list or a string. *)
Inductive Phones : Type :=
| NoPhones
| PhoneList (l : list (option string))
| PhoneString (s : string).

Record GraphContact : Type := {
  gc_id : option string;
  displayName : option string;
  emailAddresses : list EmailAddress;
  businessPhones : Phones;
  homePhones : Phones;
  mobilePhone : Phones;
}.

Record ContactsPage : Type := {
  value : list GraphContact;
  nextLink : option string;   (* "@odata.nextLink" *)
  deltaLink : option string;  (* "@odata.deltaLink" *)
}.

Definition phone_identifier (phone : string) : Identifier :=
  {| id_type := "phone"; id_value := Some phone |}.

Definition phones_of (phones : Phones) : list Identifier :=
  match phones with
  | PhoneList l =>
      flat_map (fun phone =>
                  match phone with
                  | Some p => if Py.truthy phone then [phone_identifier p] else []
                  | None => []
                  end) l
  | PhoneString s => if Py.truthy (Some s) then [phone_identifier s] else []
  | NoPhones => []
  end.

Definition _parse_microsoft_contact (contact : GraphContact)
  : option Contact :=
  let emails :=
    flat_map (fun email =>
                if Py.truthy (address email)
                then [{| id_type := "email"; id_value := address email |}]
                else [])
             (emailAddresses contact) in
  let ids :=
    emails
    ++ flat_map phones_of
         [businessPhones contact; homePhones contact; mobilePhone contact] in
  match ids with
  | [] => None
  | _ => Some {| contact_id := gc_id contact;
                 contact_name := Some (displayName contact);
                 identifiers := ids |}
  end.

(** [for contact in data.get("value", []): ...] *)
Definition process_contacts (contacts : list Contact)
    (page : list GraphContact) : list Contact :=
  fold_left
    (fun acc contact =>
       match _parse_microsoft_contact contact with
       | Some contact_data => acc ++ [contact_data]
       | None => acc
       end)
    page contacts.

(** The [while url] loop, entered with a non-empty [url]; it yields the
    contacts and the [delta_link] of the last page.  The requests are the
    URLs of the GETs. *)
Fixpoint contacts_loop (url : string) (contacts : list Contact)
    (script : list (Result ContactsPage))
  : list string * Outcome (list Contact * option string) :=
  match script with
  | [] => ([url], Awaiting)
  | Err e :: _ => ([url], Raised e)
  | Ok data :: script' =>
      let contacts' := process_contacts contacts (value data) in
      match nextLink data with
      | Some next =>
          if Py.truthy (Some next) then
            let (reqs, out) := contacts_loop next contacts' script' in
            (url :: reqs, out)
          else ([url], Returned (contacts', deltaLink data))
      | None => ([url], Returned (contacts', deltaLink data))
      end
  end.

Definition initial_url (sync_token : option string) : string :=
  match sync_token with
  | Some tok =>
      if Py.truthy sync_token
      then (GRAPH_BASE_URL ++ "/me/contacts/delta?$deltatoken=" ++ tok)%string
      else (GRAPH_BASE_URL ++ "/me/contacts?$top=100")%string
  | None => (GRAPH_BASE_URL ++ "/me/contacts?$top=100")%string
  end.

Definition contacts_prefix : string := "Failed to fetch contacts: ".

Section Contacts.

(** [urllib.parse.urlparse(link).query] and [urllib.parse.parse_qs], of the
    standard library. *)
Variable urlparse_query : string -> Result string.
Variable parse_qs : string -> Py.dict (list string).

(** [params.get("$deltatoken", [None])[0]] when [delta_link] is truthy. *)
Definition delta_token_of (delta_link : option string)
  : Result (option string) :=
  match delta_link with
  | Some link =>
      if Py.truthy delta_link then
        (query <- urlparse_query link ;;
         match Py.get (parse_qs query) "$deltatoken" with
         | None => Ok None
         | Some [] => Err (OtherException "list index out of range")
         | Some (tok :: _) => Ok (Some tok)
         end)%result
      else Ok None
  | None => Ok None
  end.

Definition get_contacts (sync_token : option string)
    (script : list (Result ContactsPage))
  : list string * Outcome (list Contact * option string) :=
  let url := initial_url sync_token in
  let (reqs, out) :=
    if Py.truthy (Some url) then contacts_loop url [] script
    else ([], Returned ([], None)) in
  (reqs,
   translate_http contacts_prefix "get_contacts"
     match out with
     | Returned (contacts, delta_link) =>
         of_result (next_sync_token <- delta_token_of delta_link ;;
                    Ok (contacts, next_sync_token))%result
     | _ => out
     end).

End Contacts.

(** *** One message *)

Record Recipient : Type := { emailAddress : option EmailAddress }.

(** [r.get("emailAddress", {}).get("address")] *)
Definition address_of (r : Recipient) : option string :=
  match emailAddress r with
  | Some a => address a
  | None => None
  end.

Record ItemBody : Type := {
  content : option string;
  contentType : option string;
}.

Record GraphMessage : Type := {
  m_id : option string;
  m_conversationId : option string;
  m_from : option Recipient;
  toRecipients : list Recipient;
  ccRecipients : list Recipient;
  bccRecipients : list Recipient;
  m_subject : option string;
  receivedDateTime : option string;
  m_body : option ItemBody;
  m_importance : option string;
  m_isDraft : option bool;
  m_isRead : option bool;
  m_hasAttachments : option bool;
}.

(** The dict [get_email_content] returns. *)
Record Email : Type := {
  e_id : string;
  e_conversationId : option string;
  e_from : option string;
  e_to : list (option string);
  e_subject : option string;
  e_date : option string;
  e_content : option string;
  e_contentType : option string;
  e_importance : option string;
  e_isDraft : option bool;
  e_isRead : option bool;
  e_hasAttachments : option bool;
}.

Definition body_field (f : ItemBody -> option string) (b : option ItemBody)
  : option string :=
  match b with
  | Some b => f b
  | None => None
  end.

Definition parse_message (message : GraphMessage) : Result Email :=
  let recepients :=
    map address_of (toRecipients message)
    ++ map address_of (ccRecipients message)
    ++ map address_of (bccRecipients message) in
  (i <- getitem "id" (m_id message) ;;
   Ok {| e_id := i;
         e_conversationId := m_conversationId message;
         e_from :=
           match m_from message with
           | Some r => address_of r
           | None => None
           end;
         e_to := recepients;
         e_subject := m_subject message;
         e_date := receivedDateTime message;
         e_content := body_field content (m_body message);
         e_contentType := body_field contentType (m_body message);
         e_importance := m_importance message;
         e_isDraft := m_isDraft message;
         e_isRead := m_isRead message;
         e_hasAttachments := m_hasAttachments message |})%result.

Definition get_email_content (email_id : string)
    (script : list (Result GraphMessage)) : list string * Outcome Email :=
  ([(GRAPH_BASE_URL ++ "/me/messages/" ++ email_id)%string],
   translate_http "Failed to fetch email: " "get_email_content"
     match script with
     | [] => Awaiting
     | reply :: _ => of_result (message <- reply ;; parse_message message)%result
     end).

(** *** One event *)

Record Location : Type := { loc_displayName : option string }.
Record ResponseStatus : Type := { response : option string }.
Record DateTimeTimeZone : Type := {
  dateTime : option string;
  timeZone : option string;
}.

Record GraphEvent : Type := {
  ev_id : option string;
  ev_subject : option string;
  ev_body : option ItemBody;
  ev_location : option Location;
  ev_start : option DateTimeTimeZone;
  ev_end : option DateTimeTimeZone;
  ev_attendees : list Recipient;
  ev_organizer : option Recipient;
  ev_isOrganizer : option bool;
  ev_isAllDay : option bool;
  ev_isCancelled : option bool;
  ev_recurrence : option string;
  ev_isDraft : option bool;
  ev_importance : option string;
  ev_sensitivity : option string;
  ev_isOnlineMeeting : option bool;
  ev_responseStatus : option ResponseStatus;
}.

Record CalendarEvent : Type := {
  ce_id : string;
  ce_summary : option string;
  ce_description : option string;
  ce_location : option string;
  ce_start : option DateTimeTimeZone;
  ce_end : option DateTimeTimeZone;
  ce_attendees : list (option string);
  ce_organizer : option string;
  ce_isOrganizer : option bool;
  ce_content : option string;
  ce_contentType : option string;
  ce_isAllDay : option bool;
  ce_isCancelled : option bool;
  ce_isRecurring : bool;
  ce_isDraft : option bool;
  ce_importance : option string;
  ce_sensitivity : option string;
  ce_recurrence : option string;
  ce_isOnlineMeeting : option bool;
  ce_response : option string;
}.

Definition parse_event (event : GraphEvent) : Result CalendarEvent :=
  (i <- getitem "id" (ev_id event) ;;
   Ok {| ce_id := i;
         ce_summary := ev_subject event;
         ce_description := body_field content (ev_body event);
         ce_location :=
           match ev_location event with
           | Some l => loc_displayName l
           | None => None
           end;
         ce_start := ev_start event;
         ce_end := ev_end event;
         ce_attendees := map address_of (ev_attendees event);
         ce_organizer :=
           match ev_organizer event with
           | Some r => address_of r
           | None => None
           end;
         ce_isOrganizer := ev_isOrganizer event;
         ce_content := body_field content (ev_body event);
         ce_contentType := body_field contentType (ev_body event);
         ce_isAllDay := ev_isAllDay event;
         ce_isCancelled := ev_isCancelled event;
         ce_isRecurring :=
           match ev_recurrence event with Some _ => true | None => false end;
         ce_isDraft := ev_isDraft event;
         ce_importance := ev_importance event;
         ce_sensitivity := ev_sensitivity event;
         ce_recurrence := ev_recurrence event;
         ce_isOnlineMeeting := ev_isOnlineMeeting event;
         ce_response :=
           match ev_responseStatus event with
           | Some s => response s
           | None => None
           end |})%result.

Definition get_calendar_event (event_id : string)
    (script : list (Result GraphEvent)) : list string * Outcome CalendarEvent :=
  ([(GRAPH_BASE_URL ++ "/me/events/" ++ event_id)%string],
   translate_http "Failed to fetch event: " "get_calendar_event"
     match script with
     | [] => Awaiting
     | reply :: _ => of_result (event <- reply ;; parse_event event)%result
     end).

(** *** Subscriptions *)

(** The JSON body of [POST /subscriptions]. *)
Record SubscriptionBody : Type := {
  b_changeType : string;
  b_notificationUrl : string;
  b_resource : string;
  b_expirationDateTime : string;
  b_clientState : string;
  b_latestSupportedTlsVersion : string;
}.

(** The subscription object Graph answers with. *)
Record SubscriptionJson : Type := {
  j_id : option string;
  j_resource : option string;
  j_expirationDateTime : option string;
}.

(** The dict [_create_subscription] returns. *)
Record Subscription : Type := {
  sub_id : string;
  sub_resource : string;
  sub_expirationDateTime : string;
  sub_clientState : string;
}.

(** [{"email": ..., "calendar": ...}] *)
Record Subscriptions : Type := {
  email : Subscription;
  calendar : Subscription;
}.

(** What a call does besides returning: drawing a client state, posting a
    subscription, patching one. *)
Inductive Effect : Type :=
| Generate (client_state : string)
| Post (url : string) (b : SubscriptionBody)
| Patch (url : string) (expirationDateTime : string).

Definition subscription_body (resource : string) (change_types : list string)
    (notification_url client_state expiration : string) : SubscriptionBody :=
  {| b_changeType := String.concat "," change_types;
     b_notificationUrl := notification_url;
     b_resource := resource;
     b_expirationDateTime := expiration;
     b_clientState := client_state;
     b_latestSupportedTlsVersion := "v1_2" |}.

(** [_create_subscription], after the POST has been sent: [reply] is what
    [raise_for_status] and [response.json()] make of the answer. *)
Definition _create_subscription (client_state : string)
    (reply : Result SubscriptionJson) : Result Subscription :=
  (subscription <- reply ;;
   i <- getitem "id" (j_id subscription) ;;
   r <- getitem "resource" (j_resource subscription) ;;
   x <- getitem "expirationDateTime" (j_expirationDateTime subscription) ;;
   Ok {| sub_id := i;
         sub_resource := r;
         sub_expirationDateTime := x;
         sub_clientState := client_state |})%result.

Section Subscribe.

(** [app.core.security.generate_client_state], which is not part of the
    integrations package: [generate_client_state n] is what its [n]-th call
    during a run returns. *)
Variable generate_client_state : nat -> string.

(** [(datetime.utcnow() + timedelta(days=3)).isoformat()] at the call. *)
Variable in_three_days : string.

Definition subscriptions_url : string :=
  (GRAPH_BASE_URL ++ "/subscriptions")%string.

(** The body of [subscribe_to_realtime_events]. *)
Definition create_both (notification_url : string)
    (script : list (Result SubscriptionJson))
  : list Effect * Outcome Subscriptions :=
  let client_state := generate_client_state 0 in
  let expiration := (in_three_days ++ "Z")%string in
  let email_post :=
    Post subscriptions_url
      (subscription_body "/me/messages" ["created"; "updated"]
         notification_url client_state expiration) in
  let calendar_post :=
    Post subscriptions_url
      (subscription_body "/me/events" ["created"; "updated"; "deleted"]
         notification_url client_state expiration) in
  match script with
  | [] => ([Generate client_state; email_post], Awaiting)
  | reply :: script' =>
      match _create_subscription client_state reply with
      | Err e => ([Generate client_state; email_post], Raised e)
      | Ok email_sub =>
          let effects := [Generate client_state; email_post; calendar_post] in
          match script' with
          | [] => (effects, Awaiting)
          | reply' :: _ =>
              match _create_subscription client_state reply' with
              | Err e => (effects, Raised e)
              | Ok calendar_sub =>
                  (effects,
                   Returned {| email := email_sub; calendar := calendar_sub |})
              end
          end
      end
  end.

Definition subscribe_to_realtime_events (user_id notification_url : string)
    (script : list (Result SubscriptionJson))
  : list Effect * Outcome Subscriptions :=
  let (effects, out) := create_both notification_url script in
  (effects,
   translate "Failed to subscribe: " provider_name
     "subscribe_to_realtime_events" out).

End Subscribe.

(** [PATCH /subscriptions/{subscription_id}]; the answer's JSON is returned
    as it is. *)
Definition renew_subscription (subscription_id expiration_date : string)
    (script : list (Result SubscriptionJson))
  : list Effect * Outcome SubscriptionJson :=
  ([Patch (GRAPH_BASE_URL ++ "/subscriptions/" ++ subscription_id)%string
      expiration_date],
   translate "Failed to renew subscription: " provider_name
     "renew_subscription"
     match script with
     | [] => Awaiting
     | reply :: _ => of_result reply
     end).

End Microsoft.

(** ** The adapter contract of base.py, over both variants *)

Module Adapter.

(** What the adapters take from outside the integrations package: standard
    library functions, [app.config.settings], [app.core.security], the clock
    and the random source. *)
Record Env : Type := {
  b64decode_utf8 : string -> Result string;
  urlparse_query : string -> Result string;
  parse_qs : string -> Py.dict (list string);
  generate_client_state : nat -> string;
  in_three_days : string;
  settings : Google.Settings;
  uuid4 : string;
}.

Inductive Provider : Type := google_workspace | microsoft_365.

Definition provider_name (p : Provider) : string :=
  match p with
  | google_workspace => Google.provider_name
  | microsoft_365 => Microsoft.provider_name
  end.

(** The five abstract methods of [BaseIntegration]. *)
Inductive Operation : Type :=
| get_contacts
| get_email_content
| get_calendar_event
| subscribe_to_realtime_events
| renew_subscription.

Definition operation_name (op : Operation) : string :=
  match op with
  | get_contacts => "get_contacts"
  | get_email_content => "get_email_content"
  | get_calendar_event => "get_calendar_event"
  | subscribe_to_realtime_events => "subscribe_to_realtime_events"
  | renew_subscription => "renew_subscription"
  end.

(** One call of an adapter method, with the replies the provider gives. *)
Inductive Call : Type :=
| GoogleContacts (sync_token : option string)
    (script : list (Result Google.ListResponse))
| GoogleEmail (email_id : string) (script : list (Result Google.Message))
| GoogleEvent (event_id : string) (script : list (Result Google.Event))
| GoogleSubscribe (user_id : string) (notification_url : option string)
    (script : list (Result Google.WatchResponse))
| GoogleRenew (subscription_id expiration_date : string)
    (script : list (Result Google.WatchResponse))
| MicrosoftContacts (sync_token : option string)
    (script : list (Result Microsoft.ContactsPage))
| MicrosoftEmail (email_id : string)
    (script : list (Result Microsoft.GraphMessage))
| MicrosoftEvent (event_id : string)
    (script : list (Result Microsoft.GraphEvent))
| MicrosoftSubscribe (user_id notification_url : string)
    (script : list (Result Microsoft.SubscriptionJson))
| MicrosoftRenew (subscription_id expiration_date : string)
    (script : list (Result Microsoft.SubscriptionJson)).

Definition provider_of (c : Call) : Provider :=
  match c with
  | GoogleContacts _ _ | GoogleEmail _ _ | GoogleEvent _ _
  | GoogleSubscribe _ _ _ | GoogleRenew _ _ _ => google_workspace
  | _ => microsoft_365
  end.

Definition operation_of (c : Call) : Operation :=
  match c with
  | GoogleContacts _ _ | MicrosoftContacts _ _ => get_contacts
  | GoogleEmail _ _ | MicrosoftEmail _ _ => get_email_content
  | GoogleEvent _ _ | MicrosoftEvent _ _ => get_calendar_event
  | GoogleSubscribe _ _ _ | MicrosoftSubscribe _ _ _ =>
      subscribe_to_realtime_events
  | GoogleRenew _ _ _ | MicrosoftRenew _ _ _ => renew_subscription
  end.

Definition error_of {R A} (run : R * Outcome A) : option PyExc :=
  match snd run with
  | Raised e => Some e
  | _ => None
  end.

(** The exception a call raises to its caller, if it raises. *)
Definition raised (env : Env) (c : Call) : option PyExc :=
  match c with
  | GoogleContacts tok script => error_of (Google.get_contacts tok script)
  | GoogleEmail i script =>
      error_of (Google.get_email_content (b64decode_utf8 env) i script)
  | GoogleEvent i script => error_of (Google.get_calendar_event i script)
  | GoogleSubscribe u n script =>
      error_of (Google.subscribe_to_realtime_events
                  (settings env) (uuid4 env) u n script)
  | GoogleRenew s x script =>
      error_of (Google.renew_subscription (settings env) (uuid4 env) s x script)
  | MicrosoftContacts tok script =>
      error_of (Microsoft.get_contacts (urlparse_query env) (parse_qs env)
                  tok script)
  | MicrosoftEmail i script => error_of (Microsoft.get_email_content i script)
  | MicrosoftEvent i script => error_of (Microsoft.get_calendar_event i script)
  | MicrosoftSubscribe u n script =>
      error_of (Microsoft.subscribe_to_realtime_events
                  (generate_client_state env) (in_three_days env) u n script)
  | MicrosoftRenew s x script =>
      error_of (Microsoft.renew_subscription s x script)
  end.

(** The contacts a [get_contacts] call returns, if it returns. *)
Definition contacts_returned (env : Env) (c : Call) : option (list Contact) :=
  match c with
  | GoogleContacts tok script =>
      match snd (Google.get_contacts tok script) with
      | Returned (contacts, _) => Some contacts
      | _ => None
      end
  | MicrosoftContacts tok script =>
      match snd (Microsoft.get_contacts (urlparse_query env) (parse_qs env)
                   tok script) with
      | Returned (contacts, _) => Some contacts
      | _ => None
      end
  | _ => None
  end.

(** The error kinds of the specification's shared taxonomy. *)
Definition taxonomy : list string :=
  ["AuthFailure"; "NotFound"; "RateLimited"; "CursorInvalid";
   "TransientUpstreamError"; "PermanentIntegrationError"].

(** An exception carries the tag [name] when it has a non-null attribute of
    that name. *)
Definition tag (e : PyExc) (name : string) : option string :=
  match getattr e name with
  | Some (Some v) => Some v
  | _ => None
  end.

End Adapter.

(** ** Notions the properties are stated with *)

Module Derived.

(** What a parser keeps of a page, in the order of the page. *)
Definition kept {X} (parse : X -> option Contact) (page : list X)
  : list Contact :=
  flat_map (fun x => match parse x with
                     | Some contact_data => [contact_data]
                     | None => []
                     end) page.

Definition google_contacts (pages : list Google.ListResponse)
  : list Contact :=
  kept Google._parse_google_contact (flat_map Google.connections pages).

Definition microsoft_contacts (pages : list Microsoft.ContactsPage)
  : list Contact :=
  kept Microsoft._parse_microsoft_contact (flat_map Microsoft.value pages).

(** The requests of a Google sync over [pages] that each announce a next
    page: the first one, then one per announced page token. *)
Definition google_requests (sync_token : option string)
    (pages : list Google.ListResponse) : list Google.ListParams :=
  Google.build_params sync_token None
  :: map (fun page =>
            Google.build_params sync_token (Google.nextPageToken page))
         pages.

(** The URL a Graph page links to. *)
Definition link_of (page : Microsoft.ContactsPage) : string :=
  match Microsoft.nextLink page with
  | Some url => url
  | None => ""
  end.

Definition microsoft_requests (sync_token : option string)
    (pages : list Microsoft.ContactsPage) : list string :=
  Microsoft.initial_url sync_token :: map link_of pages.

(** A phone field without a usable number. *)
Definition no_phone (phones : Microsoft.Phones) : Prop :=
  match phones with
  | Microsoft.NoPhones => True
  | Microsoft.PhoneList l => Forall (fun phone => Py.truthy phone = false) l
  | Microsoft.PhoneString s => s = ""
  end.

(** The value of the last header called [name]. *)
Definition last_header (name : string) (hs : list Google.Header)
  : option string :=
  fold_left
    (fun found h =>
       match Google.h_name h with
       | Some n => if (n =? name)%string then Google.h_value h else found
       | None => found
       end)
    hs None.

(** The encoded texts of the [text/plain] parts that have data. *)
Definition plain_data (ps : list Google.MessagePart) : list string :=
  flat_map
    (fun part =>
       match Google.mimeType part, Google.body part with
       | Some mt, Some b =>
           if (mt =? "text/plain")%string then
             match Google.data b with
             | Some d => if Py.truthy (Some d) then [d] else []
             | None => []
             end
           else []
       | _, _ => []
       end)
    ps.

(** A list request selects by exactly one of sync token, page token and
    the request for a new sync token. *)
Definition one_selector (r : Google.ListParams) : Prop :=
  (Py.truthy (Google.p_syncToken r) = true
   /\ Google.p_pageToken r = None /\ Google.p_requestSyncToken r = None)
  \/ (Google.p_syncToken r = None
      /\ Py.truthy (Google.p_pageToken r) = true
      /\ Google.p_requestSyncToken r = None)
  \/ (Google.p_syncToken r = None
      /\ Google.p_pageToken r = None
      /\ Google.p_requestSyncToken r = Some true).

Definition email_or_phone (i : Identifier) : Prop :=
  id_type i = "email" \/ id_type i = "phone".

End Derived.

(** ** Sample provider traffic *)

Module Examples.

Definition env : Adapter.Env :=
  {| Adapter.b64decode_utf8 :=
       fun s => if (s =? "SGVsbG8=")%string then Ok "Hello"
                else Err (OtherException "Incorrect padding");
     Adapter.urlparse_query := fun _ => Ok "";
     Adapter.parse_qs := fun _ => [];
     Adapter.generate_client_state := fun _ => "state-0";
     Adapter.in_three_days := "2026-01-04T00:00:00";
     Adapter.settings :=
       {| Google.GCP_PROJECT_ID := "apex"; Google.PUBSUB_TOPIC := "ingest" |};
     Adapter.uuid4 := "0b0e8d5c-33f1-4c0a-9d3e-5a1f5f0e7a11" |}.

(** Two connections: one with an e-mail address, one with nothing. *)
Definition ada : Google.Person :=
  {| Google.resourceName := Some "people/c1";
     Google.names := [{| Google.displayName := Some "Ada" |}];
     Google.emailAddresses := [{| Google.value := Some "ada@example.org" |}];
     Google.phoneNumbers := [] |}.

Definition nobody : Google.Person :=
  {| Google.resourceName := Some "people/c2";
     Google.names := [{| Google.displayName := Some "Nobody" |}];
     Google.emailAddresses := [];
     Google.phoneNumbers := [] |}.

Definition ada_contact : Contact :=
  {| contact_id := Some "people/c1";
     contact_name := Some (Some "Ada");
     identifiers :=
       [{| id_type := "email"; id_value := Some "ada@example.org" |}] |}.

(** A first page that announces a second one, and a last page. *)
Definition first_page : Google.ListResponse :=
  {| Google.connections := [ada];
     Google.nextPageToken := Some "P2";
     Google.nextSyncToken := None |}.

Definition last_page : Google.ListResponse :=
  {| Google.connections := [nobody];
     Google.nextPageToken := None;
     Google.nextSyncToken := Some "S2" |}.

(** Gmail payloads.  [text_part] is the plain-text body (the padded
    base64url text of "Hello", the one string the decoder of [env] reads),
    [pdf_part] an attached file, [mixed_part] a multipart part that holds
    the attached file one level down. *)
Definition text_part : Google.MessagePart :=
  {| Google.filename := Some "";
     Google.mimeType := Some "text/plain";
     Google.body := Some {| Google.data := Some "SGVsbG8=" |};
     Google.headers := [];
     Google.parts := None |}.

Definition pdf_part : Google.MessagePart :=
  {| Google.filename := Some "report.pdf";
     Google.mimeType := Some "application/pdf";
     Google.body := Some {| Google.data := None |};
     Google.headers := [];
     Google.parts := None |}.

Definition mixed_part : Google.MessagePart :=
  {| Google.filename := Some "";
     Google.mimeType := Some "multipart/mixed";
     Google.body := Some {| Google.data := None |};
     Google.headers := [];
     Google.parts := Some [pdf_part] |}.

Definition message_of (ps : list Google.MessagePart) : Google.Message :=
  {| Google.message_id := Some "18c2f";
     Google.threadId := Some "18c2f";
     Google.payload :=
       Some {| Google.filename := Some "";
               Google.mimeType := Some "multipart/related";
               Google.body := Some {| Google.data := None |};
               Google.headers :=
                 [{| Google.h_name := Some "Subject";
                     Google.h_value := Some "Report" |}];
               Google.parts := Some ps |};
     Google.labelIds := ["INBOX"] |}.

(** The file directly below the payload, and the file one level down. *)
Definition flat_message : Google.Message := message_of [text_part; pdf_part].
Definition nested_message : Google.Message :=
  message_of [text_part; mixed_part].

(** A part whose filename is one space, directly below the payload. *)
Definition space_part : Google.MessagePart :=
  {| Google.filename := Some " ";
     Google.mimeType := Some "application/octet-stream";
     Google.body := Some {| Google.data := None |};
     Google.headers := [];
     Google.parts := None |}.

Definition space_message : Google.Message :=
  message_of [text_part; space_part].

Definition email_of (has_attachments : bool) : Google.Email :=
  {| Google.e_id := "18c2f";
     Google.e_thread_id := Some "18c2f";
     Google.e_from := None;
     Google.e_to := None;
     Google.e_subject := Some "Report";
     Google.e_date := None;
     Google.e_body := "Hello";
     Google.e_labels := ["INBOX"];
     Google.e_has_attachments := has_attachments |}.

(** Two Graph pages of a full sync; the last one has no delta link. *)
Definition grace : Microsoft.GraphContact :=
  {| Microsoft.gc_id := Some "AAMk1";
     Microsoft.displayName := Some "Grace";
     Microsoft.emailAddresses :=
       [{| Microsoft.address := Some "grace@example.org" |}];
     Microsoft.businessPhones := Microsoft.PhoneList [];
     Microsoft.homePhones := Microsoft.PhoneList [];
     Microsoft.mobilePhone := Microsoft.NoPhones |}.

Definition graph_first_page : Microsoft.ContactsPage :=
  {| Microsoft.value := [grace];
     Microsoft.nextLink :=
       Some "https://graph.microsoft.com/v1.0/me/contacts?$top=100&$skip=100";
     Microsoft.deltaLink := None |}.


(** The answers of Graph to the two POSTs of a subscribe call. *)
Definition email_subscription : Microsoft.SubscriptionJson :=
  {| Microsoft.j_id := Some "sub-mail";
     Microsoft.j_resource := Some "/me/messages";
     Microsoft.j_expirationDateTime := Some "2026-01-04T00:00:00Z" |}.

Definition calendar_subscription : Microsoft.SubscriptionJson :=
  {| Microsoft.j_id := Some "sub-cal";
     Microsoft.j_resource := Some "/me/events";
     Microsoft.j_expirationDateTime := Some "2026-01-04T00:00:00Z" |}.

(** A last page of a delta query, and a standard library that reads its
    link. *)
Definition delta_link : string :=
  "https://graph.microsoft.com/v1.0/me/contacts/delta?$deltatoken=abc".

Definition graph_delta_page : Microsoft.ContactsPage :=
  {| Microsoft.value := [];
     Microsoft.nextLink := None;
     Microsoft.deltaLink := Some delta_link |}.

Definition query_of (url : string) : Result string :=
  if (url =? delta_link)%string then Ok "$deltatoken=abc"
  else Err (OtherException "Invalid IPv6 URL").

Definition params_of (query : string) : Py.dict (list string) :=
  if (query =? "$deltatoken=abc")%string then [("$deltatoken", ["abc"])]
  else [].

(** A last page whose delta link carries another parameter, one whose
    delta link is no URL, and a standard library that reads the three
    links: a bracket that is never closed makes [urlparse] raise. *)
Definition skip_link : string :=
  "https://graph.microsoft.com/v1.0/me/contacts/delta?$skiptoken=xyz".


Definition bracket_link : string := "https://[graph/delta".


Definition urlparse_query (url : string) : Result string :=
  if (url =? skip_link)%string then Ok "$skiptoken=xyz"
  else if (url =? delta_link)%string then Ok "$deltatoken=abc"
  else if (url =? bracket_link)%string
       then Err (OtherException "Invalid IPv6 URL")
  else Ok "".

Definition parse_qs (query : string) : Py.dict (list string) :=
  if (query =? "$skiptoken=xyz")%string then [("$skiptoken", ["xyz"])]
  else if (query =? "$deltatoken=abc")%string then [("$deltatoken", ["abc"])]
  else [].

(** A contact of which Graph knows nothing usable. *)
Definition blank : Microsoft.GraphContact :=
  {| Microsoft.gc_id := Some "AAMk2";
     Microsoft.displayName := Some "Blank";
     Microsoft.emailAddresses := [{| Microsoft.address := Some "" |}];
     Microsoft.businessPhones := Microsoft.PhoneList [Some ""; None];
     Microsoft.homePhones := Microsoft.NoPhones;
     Microsoft.mobilePhone := Microsoft.PhoneString "" |}.

(** A message whose only parts are not plain text, with two [Subject]
    headers. *)
Definition html_part : Google.MessagePart :=
  {| Google.filename := Some "";
     Google.mimeType := Some "text/html";
     Google.body := Some {| Google.data := Some "SGVsbG8=" |};
     Google.headers := [];
     Google.parts := None |}.

Definition html_payload : Google.MessagePart :=
  {| Google.filename := Some "";
     Google.mimeType := Some "multipart/alternative";
     Google.body := Some {| Google.data := Some "SGVsbG8=" |};
     Google.headers :=
       [{| Google.h_name := Some "Subject"; Google.h_value := Some "Draft" |};
        {| Google.h_name := Some "Subject"; Google.h_value := Some "Final" |}];
     Google.parts := Some [html_part; pdf_part] |}.

Definition html_message : Google.Message :=
  {| Google.message_id := Some "18c30";
     Google.threadId := None;
     Google.payload := Some html_payload;
     Google.labelIds := [] |}.

Definition html_email : Google.Email :=
  {| Google.e_id := "18c30";
     Google.e_thread_id := None;
     Google.e_from := None;
     Google.e_to := None;
     Google.e_subject := Some "Final";
     Google.e_date := None;
     Google.e_body := "";
     Google.e_labels := [];
     Google.e_has_attachments := true |}.

Definition gmail_watch : Google.WatchResponse :=
  {| Google.w_historyId := Some "7001";
     Google.w_expiration := Some "1767225600000";
     Google.w_id := None;
     Google.w_resourceId := None |}.

(** Objects that came without their ["id"]. *)
Definition anonymous_event : Google.Event :=
  {| Google.event_id := None;
     Google.summary := Some "Stand-up";
     Google.description := None;
     Google.location := None;
     Google.start := None;
     Google.end_ := None;
     Google.attendees := [];
     Google.organizer := None;
     Google.status := Some "confirmed";
     Google.recurringEventId := None;
     Google.eventType := None;
     Google.conferenceData := None |}.

Definition anonymous_graph_event : Microsoft.GraphEvent :=
  {| Microsoft.ev_id := None;
     Microsoft.ev_subject := Some "Stand-up";
     Microsoft.ev_body := None;
     Microsoft.ev_location := None;
     Microsoft.ev_start := None;
     Microsoft.ev_end := None;
     Microsoft.ev_attendees := [];
     Microsoft.ev_organizer := None;
     Microsoft.ev_isOrganizer := None;
     Microsoft.ev_isAllDay := None;
     Microsoft.ev_isCancelled := None;
     Microsoft.ev_recurrence := None;
     Microsoft.ev_isDraft := None;
     Microsoft.ev_importance := None;
     Microsoft.ev_sensitivity := None;
     Microsoft.ev_isOnlineMeeting := None;
     Microsoft.ev_responseStatus := None |}.

Definition anonymous_graph_message : Microsoft.GraphMessage :=
  {| Microsoft.m_id := None;
     Microsoft.m_conversationId := None;
     Microsoft.m_from := None;
     Microsoft.toRecipients := [];
     Microsoft.ccRecipients := [];
     Microsoft.bccRecipients := [];
     Microsoft.m_subject := Some "Report";
     Microsoft.receivedDateTime := None;
     Microsoft.m_body := None;
     Microsoft.m_importance := None;
     Microsoft.m_isDraft := None;
     Microsoft.m_isRead := None;
     Microsoft.m_hasAttachments := Some false |}.

(** A Graph message that has no [hasAttachments] key, and what
    [get_email_content] makes of it. *)
Definition graph_message : Microsoft.GraphMessage :=
  {| Microsoft.m_id := Some "AAMkAGI2";
     Microsoft.m_conversationId := None;
     Microsoft.m_from := None;
     Microsoft.toRecipients := [];
     Microsoft.ccRecipients := [];
     Microsoft.bccRecipients := [];
     Microsoft.m_subject := Some "Report";
     Microsoft.receivedDateTime := None;
     Microsoft.m_body := None;
     Microsoft.m_importance := None;
     Microsoft.m_isDraft := None;
     Microsoft.m_isRead := None;
     Microsoft.m_hasAttachments := None |}.

Definition graph_email : Microsoft.Email :=
  {| Microsoft.e_id := "AAMkAGI2";
     Microsoft.e_conversationId := None;
     Microsoft.e_from := None;
     Microsoft.e_to := [];
     Microsoft.e_subject := Some "Report";
     Microsoft.e_date := None;
     Microsoft.e_content := None;
     Microsoft.e_contentType := None;
     Microsoft.e_importance := None;
     Microsoft.e_isDraft := None;
     Microsoft.e_isRead := None;
     Microsoft.e_hasAttachments := None |}.

End Examples.

(** * Properties *)

(** ** Python strings *)

Lemma truthy_Some (s : string) : Py.truthy (Some s) = true <-> s <> "".
Proof.
  unfold Py.truthy. destruct (String.eqb_spec s ""); simpl; split;
    congruence.
Qed.

Lemma rstrip_empty_iff (s : string) :
  Py.rstrip s = "" <-> forall c, In c (list_ascii_of_string s) ->
                                 Py.isspace c = true.
Proof.
  induction s as [|c s IH]; simpl.
  - split; [intros _ c []|reflexivity].
  - destruct (Py.rstrip s) eqn:R.
    + destruct (Py.isspace c) eqn:C; split.
      * intros _ c' [<-|Hin]; [exact C|]. now apply IH.
      * reflexivity.
      * discriminate.
      * intros H. specialize (H c (or_introl eq_refl)). congruence.
    + split; [discriminate|].
      intros H. assert (E : String a s0 = "") by
        (apply IH; intros c' Hc; apply H; now right).
      discriminate.
Qed.

(** [s.strip()] is non-empty exactly when [s] has a character that is not
    white space. *)
Lemma strip_nonempty_iff (s : string) :
  Py.strip s <> "" <->
  exists c, In c (list_ascii_of_string s) /\ Py.isspace c = false.
Proof.
  unfold Py.strip. induction s as [|c s IH].
  - simpl. split; [congruence|intros (c & [] & _)].
  - cbn [Py.lstrip list_ascii_of_string]. destruct (Py.isspace c) eqn:C.
    + rewrite IH. split.
      * intros (c' & Hin & Hc). exists c'. split; [now right|exact Hc].
      * intros (c' & [<-|Hin] & Hc); [congruence|]. now exists c'.
    + split.
      * intros _. exists c. split; [now left|exact C].
      * intros _ E. apply rstrip_empty_iff with (c := c) in E;
          [congruence|now left].
Qed.

(** ** Contacts without identifiers (C6) *)

Lemma google_contact_linkable (connection : Google.Person) (c : Contact) :
  Google._parse_google_contact connection = Some c -> linkable c.
Proof.
  unfold Google._parse_google_contact, linkable.
  destruct (map _ (Google.emailAddresses connection) ++ _) eqn:E;
    [discriminate|].
  intros [= <-]. simpl. discriminate.
Qed.

Lemma microsoft_contact_linkable (contact : Microsoft.GraphContact)
    (c : Contact) :
  Microsoft._parse_microsoft_contact contact = Some c -> linkable c.
Proof.
  unfold Microsoft._parse_microsoft_contact, linkable.
  destruct (flat_map _ (Microsoft.emailAddresses contact) ++ _) eqn:E;
    [discriminate|].
  intros [= <-]. simpl. discriminate.
Qed.

Section Collect.

Context {X : Type} (parse : X -> option Contact).
Hypothesis parse_linkable : forall x c, parse x = Some c -> linkable c.

Lemma collect_linkable (page : list X) :
  forall contacts,
    Forall linkable contacts ->
    Forall linkable
      (fold_left
         (fun acc x =>
            match parse x with
            | Some contact_data => acc ++ [contact_data]
            | None => acc
            end)
         page contacts).
Proof.
  induction page as [|x page IH]; intros contacts H; [exact H|].
  cbn. apply IH. destruct (parse x) as [c|] eqn:E; [|exact H].
  apply Forall_app. split; [exact H|].
  constructor; [|constructor]. eapply parse_linkable, E.
Qed.

End Collect.

Lemma google_loop_linkable (script : list (Result Google.ListResponse)) :
  forall sync_token next_page_token contacts reqs cs tok,
    Forall linkable contacts ->
    Google.contacts_loop sync_token next_page_token contacts script
    = (reqs, Returned (cs, tok)) ->
    Forall linkable cs.
Proof.
  induction script as [|[response|e] script IH];
    intros st npt contacts reqs cs tok Hacc; cbn [Google.contacts_loop].
  - discriminate.
  - pose proof (collect_linkable _ google_contact_linkable
                  (Google.connections response) _ Hacc) as Hpage.
    destruct (Py.truthy (Google.nextPageToken response)).
    + destruct (Google.contacts_loop st _ _ script) as [reqs' out] eqn:L.
      intros [= <- ->]. eapply IH; [exact Hpage|exact L].
    + intros [= <- <- <-]. exact Hpage.
  - destruct (Google.is_gone e && Py.truthy st); [|discriminate].
    destruct (Google.contacts_loop None None [] script) as [reqs' out] eqn:L.
    destruct out as [[cs' tok']| |]; cbn; intros [= <- <- <-].
    eapply IH; [constructor|exact L].
Qed.

Lemma microsoft_loop_linkable (script : list (Result Microsoft.ContactsPage)) :
  forall url contacts reqs cs link,
    Forall linkable contacts ->
    Microsoft.contacts_loop url contacts script = (reqs, Returned (cs, link)) ->
    Forall linkable cs.
Proof.
  induction script as [|[data|e] script IH];
    intros url contacts reqs cs link Hacc; cbn [Microsoft.contacts_loop];
    try discriminate.
  pose proof (collect_linkable _ microsoft_contact_linkable
                (Microsoft.value data) _ Hacc) as Hpage.
  destruct (Microsoft.nextLink data) as [next|].
  - destruct (Py.truthy (Some next)).
    + destruct (Microsoft.contacts_loop next _ script) as [reqs' out] eqn:L.
      intros [= <- ->]. eapply IH; [exact Hpage|exact L].
    + intros [= <- <- <-]. exact Hpage.
  - intros [= <- <- <-]. exact Hpage.
Qed.

(** C6.  Whatever the variant, the sync token and the pages the provider
    sends, a list of contacts returned by [get_contacts] holds no contact
    whose [identifiers] are empty. *)
Theorem get_contacts_drops_unlinkable (env : Adapter.Env) (c : Adapter.Call)
    (contacts : list Contact) :
  Adapter.contacts_returned env c = Some contacts ->
  Forall (fun contact => identifiers contact <> []) contacts.
Proof.
  destruct c as [tok script| | | | |tok script| | | |]; cbn; try discriminate.
  - unfold Google.get_contacts.
    destruct (Google.contacts_loop tok None [] script) as [reqs out] eqn:L.
    destruct out as [[cs t]| |]; cbn; try discriminate.
    intros [= <-]. eapply google_loop_linkable; [constructor|exact L].
  - unfold Microsoft.get_contacts.
    destruct (Py.truthy (Some (Microsoft.initial_url tok))).
    + destruct (Microsoft.contacts_loop _ [] script) as [reqs out] eqn:L.
      destruct out as [[cs link]|e|]; cbn.
      * destruct (Microsoft.delta_token_of _ _ link) as [t|e]; cbn.
        -- intros [= <-]. eapply microsoft_loop_linkable; [constructor|exact L].
        -- destruct e; discriminate.
      * destruct e; discriminate.
      * discriminate.
    + cbn. intros [= <-]. constructor.
Qed.

Lemma get_contacts_drops_unlinkable_witness :
  Adapter.contacts_returned Examples.env
    (Adapter.GoogleContacts None
       [Ok Examples.first_page; Ok Examples.last_page])
  = Some [Examples.ada_contact]
  /\ Forall (fun contact => identifiers contact <> []) [Examples.ada_contact].
Proof.
  split; [reflexivity|].
  apply (get_contacts_drops_unlinkable Examples.env
           (Adapter.GoogleContacts None
              [Ok Examples.first_page; Ok Examples.last_page])).
  reflexivity.
Defined.

(** ** Stale sync tokens (C2) *)

(** The Google variant restarts once: after a 410 on an incremental sync it
    runs the full sync on the rest of the provider's replies and returns or
    raises what that run does. *)
Lemma google_stale_token_restarts (tok text : string)
    (rest : list (Result Google.ListResponse)) :
  tok <> "" ->
  Google.get_contacts (Some tok) (Err (HttpError 410 text) :: rest)
  = (Google.build_params (Some tok) None
       :: fst (Google.get_contacts None rest),
     translate Google.contacts_prefix Google.provider_name "get_contacts"
       (snd (Google.get_contacts None rest))).
Proof.
  intros Htok. apply truthy_Some in Htok.
  unfold Google.get_contacts. cbn [Google.contacts_loop Google.is_gone].
  rewrite Htok. cbn [andb Z.eqb Pos.eqb].
  destruct (Google.contacts_loop None None [] rest) as [reqs out].
  reflexivity.
Qed.

(** The restarted full sync does not restart again: its 410 is raised. *)
Lemma google_full_sync_410_raises (text : string)
    (rest : list (Result Google.ListResponse)) :
  Google.get_contacts None (Err (HttpError 410 text) :: rest)
  = ([Google.build_params None None],
     Raised (Integration
               {| message := (Google.contacts_prefix ++ text)%string;
                  provider := Google.provider_name;
                  operation := Some "get_contacts" |})).
Proof. reflexivity. Qed.

(** C2, at the Microsoft variant.  Its [get_contacts] has no handler for a
    rejected delta token: a 410 on the first request of an incremental sync
    is raised as an [IntegrationException] after that single request,
    whatever the provider would have answered to a full sync. *)
Theorem microsoft_stale_token_is_raised
    (urlparse_query : string -> Result string)
    (parse_qs : string -> Py.dict (list string))
    (tok text : string) (rest : list (Result Microsoft.ContactsPage)) :
  Microsoft.get_contacts urlparse_query parse_qs (Some tok)
    (Err (HTTPStatusError 410 text) :: rest)
  = ([Microsoft.initial_url (Some tok)],
     Raised (Integration
               {| message := "Failed to fetch contacts: HTTP 410";
                  provider := "microsoft_365";
                  operation := Some "get_contacts" |})).
Proof.
  unfold Microsoft.get_contacts, Microsoft.initial_url.
  destruct (Py.truthy (Some tok)); reflexivity.
Qed.

(** ** Pagination (C3, C7) *)

(** Every turn of the Google loop starts by sending the parameters built
    from the two tokens it holds. *)
Lemma google_loop_first_request (script : list (Result Google.ListResponse))
    (sync_token next_page_token : option string) (contacts : list Contact) :
  exists reqs,
    fst (Google.contacts_loop sync_token next_page_token contacts script)
    = Google.build_params sync_token next_page_token :: reqs.
Proof.
  destruct script as [|[response|e] script]; cbn [Google.contacts_loop].
  - now exists [].
  - destruct (Py.truthy (Google.nextPageToken response)).
    + destruct (Google.contacts_loop _ _ _ script) as [reqs out]. now exists reqs.
    + now exists [].
  - destruct (Google.is_gone e && Py.truthy sync_token).
    + destruct (Google.contacts_loop _ _ _ script) as [reqs out]. now exists reqs.
    + now exists [].
Qed.

(** With a truthy sync token the first branch of the chain wins: the page
    token the loop holds does not reach the request. *)
Lemma google_incremental_params (tok : string)
    (next_page_token : option string) :
  tok <> "" ->
  Google.build_params (Some tok) next_page_token
  = {| Google.p_resourceName := "people/me";
       Google.p_pageSize := 100;
       Google.p_personFields := "names,emailAddresses,phoneNumbers,metadata";
       Google.p_syncToken := Some tok;
       Google.p_pageToken := None;
       Google.p_requestSyncToken := None |}.
Proof.
  intros Htok. apply truthy_Some in Htok.
  unfold Google.build_params. now rewrite Htok.
Qed.

Lemma google_incremental_loop (tok : string)
    (script : list (Result Google.ListResponse)) :
  tok <> "" ->
  Forall (fun reply => match reply with
                       | Ok _ => True
                       | Err e => Google.is_gone e = false
                       end) script ->
  forall next_page_token contacts,
    Forall (fun r => Google.p_syncToken r = Some tok
                     /\ Google.p_pageToken r = None)
      (fst (Google.contacts_loop (Some tok) next_page_token contacts script)).
Proof.
  intros Htok Hscript.
  assert (Hreq : forall npt,
             Google.p_syncToken (Google.build_params (Some tok) npt) = Some tok
             /\ Google.p_pageToken (Google.build_params (Some tok) npt) = None)
    by (intros npt; rewrite google_incremental_params by exact Htok; now split).
  induction Hscript as [|[response|e] script Hreply Hrest IH];
    intros npt contacts; cbn [Google.contacts_loop].
  - constructor; [apply Hreq|constructor].
  - destruct (Py.truthy (Google.nextPageToken response)).
    + specialize (IH (Google.nextPageToken response)
                    (Google.process_connections contacts
                       (Google.connections response))).
      destruct (Google.contacts_loop _ _ _ script) as [reqs out].
      constructor; [apply Hreq|exact IH].
    + constructor; [apply Hreq|constructor].
  - rewrite Hreply. cbn [andb]. constructor; [apply Hreq|constructor].
Qed.

(** C3, at the Google variant with a sync token.  As long as the provider
    does not answer 410, every request of an incremental [get_contacts]
    carries the caller's sync token and no page token: the follow-up to a
    page that announced a [nextPageToken] is the first request once more. *)
Theorem google_incremental_sync_drops_page_token (tok : string)
    (script : list (Result Google.ListResponse)) :
  tok <> "" ->
  Forall (fun reply => match reply with
                       | Ok _ => True
                       | Err e => Google.is_gone e = false
                       end) script ->
  Forall (fun r => Google.p_syncToken r = Some tok
                   /\ Google.p_pageToken r = None)
    (fst (Google.get_contacts (Some tok) script)).
Proof.
  intros Htok Hscript. unfold Google.get_contacts.
  pose proof (google_incremental_loop tok script Htok Hscript None []) as H.
  destruct (Google.contacts_loop (Some tok) None [] script) as [reqs out].
  exact H.
Qed.

Lemma google_incremental_sync_drops_page_token_witness :
  "S1" <> ""
  /\ Forall (fun reply => match reply with
                          | Ok _ => True
                          | Err e => Google.is_gone e = false
                          end)
       [Ok Examples.first_page; Ok Examples.last_page]
  /\ Forall (fun r => Google.p_syncToken r = Some "S1"
                      /\ Google.p_pageToken r = None)
       (fst (Google.get_contacts (Some "S1")
               [Ok Examples.first_page; Ok Examples.last_page]))
  /\ List.length (fst (Google.get_contacts (Some "S1")
                    [Ok Examples.first_page; Ok Examples.last_page])) = 2.
Proof.
  assert (Htok : "S1" <> "") by discriminate.
  assert (Hscript :
            Forall (fun reply : Result Google.ListResponse =>
                      match reply with
                      | Ok _ => True
                      | Err e => Google.is_gone e = false
                      end)
              [Ok Examples.first_page; Ok Examples.last_page])
    by (repeat constructor).
  split; [exact Htok|]. split; [exact Hscript|]. split; [|reflexivity].
  exact (google_incremental_sync_drops_page_token "S1" _ Htok Hscript).
Defined.

(** The Microsoft loop does follow the link of the page before. *)
Lemma microsoft_follows_next_link (data : Microsoft.ContactsPage)
    (next url : string) (contacts : list Contact)
    (script : list (Result Microsoft.ContactsPage)) :
  Microsoft.nextLink data = Some next ->
  next <> "" ->
  exists reqs,
    fst (Microsoft.contacts_loop url contacts (Ok data :: script))
    = url :: next :: reqs.
Proof.
  intros Hnext Hne. apply truthy_Some in Hne.
  cbn [Microsoft.contacts_loop]. rewrite Hnext, Hne.
  destruct script as [|[data'|e] script]; cbn [Microsoft.contacts_loop].
  - now exists [].
  - destruct (Microsoft.nextLink data') as [next'|].
    + destruct (Py.truthy (Some next')).
      * destruct (Microsoft.contacts_loop next' _ script) as [reqs out].
        now exists reqs.
      * now exists [].
    + now exists [].
  - now exists [].
Qed.

(** A page without a next-page token ends either loop, with the resumable
    token of that page. *)
Lemma google_last_page_stops (response : Google.ListResponse)
    (sync_token next_page_token : option string) (contacts : list Contact)
    (rest : list (Result Google.ListResponse)) :
  Py.truthy (Google.nextPageToken response) = false ->
  Google.contacts_loop sync_token next_page_token contacts
    (Ok response :: rest)
  = ([Google.build_params sync_token next_page_token],
     Returned (Google.process_connections contacts
                 (Google.connections response),
               Google.nextSyncToken response)).
Proof. intros H. cbn [Google.contacts_loop]. now rewrite H. Qed.

Lemma microsoft_last_page_stops (data : Microsoft.ContactsPage)
    (url : string) (contacts : list Contact)
    (rest : list (Result Microsoft.ContactsPage)) :
  Py.truthy (Microsoft.nextLink data) = false ->
  Microsoft.contacts_loop url contacts (Ok data :: rest)
  = ([url],
     Returned (Microsoft.process_contacts contacts (Microsoft.value data),
               Microsoft.deltaLink data)).
Proof.
  intros H. cbn [Microsoft.contacts_loop].
  destruct (Microsoft.nextLink data) as [next|]; [|reflexivity].
  now rewrite H.
Qed.

(** Neither loop sends more requests than the provider has replies, plus
    the one it may be waiting on. *)
Lemma google_requests_bounded (script : list (Result Google.ListResponse)) :
  forall sync_token next_page_token contacts,
    List.length
      (fst (Google.contacts_loop sync_token next_page_token contacts script))
    <= S (List.length script).
Proof.
  induction script as [|[response|e] script IH]; intros st npt contacts;
    cbn [Google.contacts_loop].
  - cbn. lia.
  - destruct (Py.truthy (Google.nextPageToken response)); [|cbn; lia].
    specialize (IH st (Google.nextPageToken response)
                  (Google.process_connections contacts
                     (Google.connections response))).
    destruct (Google.contacts_loop _ _ _ script) as [reqs out].
    cbn in IH |- *. lia.
  - destruct (Google.is_gone e && Py.truthy st); [|cbn; lia].
    specialize (IH None None []).
    destruct (Google.contacts_loop _ _ _ script) as [reqs out].
    cbn in IH |- *. lia.
Qed.

Lemma microsoft_requests_bounded
    (script : list (Result Microsoft.ContactsPage)) :
  forall url contacts,
    List.length (fst (Microsoft.contacts_loop url contacts script))
    <= S (List.length script).
Proof.
  induction script as [|[data|e] script IH]; intros url contacts;
    cbn [Microsoft.contacts_loop]; try (cbn; lia).
  destruct (Microsoft.nextLink data) as [next|]; [|cbn; lia].
  destruct (Py.truthy (Some next)); [|cbn; lia].
  specialize (IH next (Microsoft.process_contacts contacts
                         (Microsoft.value data))).
  destruct (Microsoft.contacts_loop _ _ script) as [reqs out].
  cbn in IH |- *. lia.
Qed.

(** C7.  In a full sync of the Google variant, the request that follows a
    page announcing a [nextPageToken] carries that page token and nothing
    else: [requestSyncToken] is sent with the first request only. *)
Theorem google_full_sync_follow_up_request (page : Google.ListResponse)
    (rest : list (Result Google.ListResponse)) :
  Py.truthy (Google.nextPageToken page) = true ->
  exists reqs,
    fst (Google.get_contacts None (Ok page :: rest))
    = {| Google.p_resourceName := "people/me";
         Google.p_pageSize := 100;
         Google.p_personFields := "names,emailAddresses,phoneNumbers,metadata";
         Google.p_syncToken := None;
         Google.p_pageToken := None;
         Google.p_requestSyncToken := Some true |}
      :: {| Google.p_resourceName := "people/me";
            Google.p_pageSize := 100;
            Google.p_personFields :=
              "names,emailAddresses,phoneNumbers,metadata";
            Google.p_syncToken := None;
            Google.p_pageToken := Google.nextPageToken page;
            Google.p_requestSyncToken := None |}
      :: reqs.
Proof.
  intros Hnext. unfold Google.get_contacts. cbn [Google.contacts_loop].
  rewrite Hnext.
  destruct (google_loop_first_request rest None (Google.nextPageToken page)
              (Google.process_connections [] (Google.connections page)))
    as [reqs Hreqs].
  destruct (Google.contacts_loop None _ _ rest) as [reqs' out].
  cbn in Hreqs |- *. subst reqs'. exists reqs.
  unfold Google.build_params. cbn [Py.truthy]. rewrite Hnext.
  reflexivity.
Qed.

Lemma google_full_sync_follow_up_request_witness :
  Py.truthy (Google.nextPageToken Examples.first_page) = true
  /\ exists reqs,
      fst (Google.get_contacts None
             [Ok Examples.first_page; Ok Examples.last_page])
      = {| Google.p_resourceName := "people/me";
           Google.p_pageSize := 100;
           Google.p_personFields :=
             "names,emailAddresses,phoneNumbers,metadata";
           Google.p_syncToken := None;
           Google.p_pageToken := None;
           Google.p_requestSyncToken := Some true |}
        :: {| Google.p_resourceName := "people/me";
              Google.p_pageSize := 100;
              Google.p_personFields :=
                "names,emailAddresses,phoneNumbers,metadata";
              Google.p_syncToken := None;
              Google.p_pageToken := Some "P2";
              Google.p_requestSyncToken := None |}
        :: reqs.
Proof.
  split; [reflexivity|].
  exact (google_full_sync_follow_up_request Examples.first_page
           [Ok Examples.last_page] eq_refl).
Defined.

(** ** The next sync token of the Microsoft variant (C10) *)

Lemma microsoft_initial_url_truthy (sync_token : option string) :
  Py.truthy (Some (Microsoft.initial_url sync_token)) = true.
Proof.
  unfold Microsoft.initial_url.
  destruct sync_token as [tok|]; [destruct (Py.truthy (Some tok))|];
    reflexivity.
Qed.

(** Without a sync token the first request is the full listing. *)
Lemma microsoft_no_token_is_full_sync :
  Microsoft.initial_url None
  = "https://graph.microsoft.com/v1.0/me/contacts?$top=100".
Proof. reflexivity. Qed.





(** ** Client state of the Microsoft subscriptions (C9) *)

(** C9.  A [subscribe_to_realtime_events] call of the Microsoft variant
    that returns has drawn one client state, has sent it in both POST
    bodies, and both returned subscriptions carry it. *)
Theorem microsoft_subscriptions_share_client_state
    (generate_client_state : nat -> string) (in_three_days : string)
    (user_id notification_url : string)
    (script : list (Result Microsoft.SubscriptionJson))
    (effects : list Microsoft.Effect) (subs : Microsoft.Subscriptions) :
  Microsoft.subscribe_to_realtime_events generate_client_state in_three_days
    user_id notification_url script
  = (effects, Returned subs) ->
  exists client_state email_body calendar_body,
    effects = [Microsoft.Generate client_state;
               Microsoft.Post Microsoft.subscriptions_url email_body;
               Microsoft.Post Microsoft.subscriptions_url calendar_body]
    /\ Microsoft.b_clientState email_body = client_state
    /\ Microsoft.b_clientState calendar_body = client_state
    /\ Microsoft.sub_clientState (Microsoft.email subs) = client_state
    /\ Microsoft.sub_clientState (Microsoft.calendar subs) = client_state.
Proof.
  unfold Microsoft.subscribe_to_realtime_events, Microsoft.create_both.
  set (client_state := generate_client_state 0).
  destruct script as [|reply script]; [discriminate|].
  destruct (Microsoft._create_subscription client_state reply)
    as [email_sub|e] eqn:Eemail; [|discriminate].
  destruct script as [|reply' script]; [discriminate|].
  destruct (Microsoft._create_subscription client_state reply')
    as [calendar_sub|e] eqn:Ecal; [|discriminate].
  cbn [translate]. intros [= <- <-].
  assert (Hstate : forall r s,
             Microsoft._create_subscription client_state r = Ok s ->
             Microsoft.sub_clientState s = client_state).
  { intros [j|e] s; [|discriminate]. cbn.
    destruct (Microsoft.j_id j); [|discriminate].
    destruct (Microsoft.j_resource j); [|discriminate].
    destruct (Microsoft.j_expirationDateTime j); [|discriminate].
    cbn. now intros [= <-]. }
  do 3 eexists. split; [reflexivity|]. cbn.
  repeat split; eauto.
Qed.

Lemma microsoft_subscriptions_share_client_state_witness :
  exists client_state email_body calendar_body,
    [Microsoft.Generate "state-0";
     Microsoft.Post Microsoft.subscriptions_url
       (Microsoft.subscription_body "/me/messages" ["created"; "updated"]
          "https://apex.example/hook" "state-0" "2026-01-04T00:00:00Z");
     Microsoft.Post Microsoft.subscriptions_url
       (Microsoft.subscription_body "/me/events"
          ["created"; "updated"; "deleted"]
          "https://apex.example/hook" "state-0" "2026-01-04T00:00:00Z")]
    = [Microsoft.Generate client_state;
       Microsoft.Post Microsoft.subscriptions_url email_body;
       Microsoft.Post Microsoft.subscriptions_url calendar_body]
    /\ Microsoft.b_clientState email_body = client_state
    /\ Microsoft.b_clientState calendar_body = client_state
    /\ "state-0" = client_state
    /\ "state-0" = client_state.
Proof.
  exact (microsoft_subscriptions_share_client_state
           (fun _ => "state-0") "2026-01-04T00:00:00"
           "user-1" "https://apex.example/hook"
           [Ok Examples.email_subscription; Ok Examples.calendar_subscription]
           _
           {| Microsoft.email :=
                {| Microsoft.sub_id := "sub-mail";
                   Microsoft.sub_resource := "/me/messages";
                   Microsoft.sub_expirationDateTime := "2026-01-04T00:00:00Z";
                   Microsoft.sub_clientState := "state-0" |};
              Microsoft.calendar :=
                {| Microsoft.sub_id := "sub-cal";
                   Microsoft.sub_resource := "/me/events";
                   Microsoft.sub_expirationDateTime := "2026-01-04T00:00:00Z";
                   Microsoft.sub_clientState := "state-0" |} |}
           eq_refl).
Defined.

(** ** Attachments (C5) *)

Lemma names_a_file_iff (part : Google.MessagePart) :
  Google.names_a_file part = true <->
  exists f, Google.filename part = Some f /\ Py.strip f <> "".
Proof.
  unfold Google.names_a_file.
  destruct (Google.filename part) as [f|]; cbn [option_map].
  - rewrite andb_true_iff, !truthy_Some. split.
    + intros [_ H]. now exists f.
    + intros (f' & [= <-] & H). split; [|exact H].
      intros ->. now apply H.
  - split; [discriminate|]. now intros (f & [=] & _).
Qed.

Lemma scan_parts_iff (ps : list Google.MessagePart) :
  Google.scan_parts ps = true <->
  exists part, In part ps /\ Google.names_a_file part = true.
Proof.
  induction ps as [|p ps IH]; cbn [Google.scan_parts In].
  - split; [discriminate|]. now intros (part & [] & _).
  - destruct (Google.names_a_file p) eqn:E.
    + split; [|reflexivity]. intros _. exists p. now split; [left|].
    + rewrite IH. split.
      * intros (part & Hin & H). exists part. now split; [right|].
      * intros (part & [<-|Hin] & H); [congruence|]. now exists part.
Qed.

(** The Microsoft variant hands on the flag of the Graph message. *)
Lemma microsoft_has_attachments_is_the_flag (message : Microsoft.GraphMessage)
    (email : Microsoft.Email) :
  Microsoft.parse_message message = Ok email ->
  Microsoft.e_hasAttachments email = Microsoft.m_hasAttachments message.
Proof.
  unfold Microsoft.parse_message.
  destruct (Microsoft.m_id message); [|discriminate].
  cbn. now intros [= <-].
Qed.

(** What [_parse_gmail_message] returns as [has_attachments]. *)
Lemma gmail_has_attachments_is_the_scan
    (b64decode_utf8 : string -> Result string)
    (message : Google.Message) (email : Google.Email) :
  Google._parse_gmail_message b64decode_utf8 message = Ok email ->
  exists pl,
    Google.payload message = Some pl
    /\ Google.e_has_attachments email
       = match Google.parts pl with
         | Some ps => Google.scan_parts ps
         | None => false
         end.
Proof.
  unfold Google._parse_gmail_message.
  destruct (Google.payload message) as [pl|]; [|discriminate].
  cbn [getitem bind].
  destruct (Google.header_dict_of (Google.headers pl) []) as [hd|e];
    [|discriminate].
  cbn [bind].
  destruct (Google._extract_message_body b64decode_utf8 pl) as [txt|e];
    [|discriminate].
  cbn [bind].
  destruct (Google.message_id message) as [i|]; [|discriminate].
  cbn [getitem bind]. intros [= <-]. cbn [Google.e_has_attachments].
  now exists pl.
Qed.

(** C5, as the code has it.  When [_parse_gmail_message] returns, its
    [has_attachments] is true exactly when one of the parts directly below
    the payload has a filename that is not empty after [strip]; parts of
    parts are not looked at.  When the Microsoft variant returns an email,
    its [hasAttachments] is what the Graph message has under that key,
    [None] when the key is absent: no substructure is inspected. *)
Theorem has_attachments_of_both_variants
    (b64decode_utf8 : string -> Result string)
    (message : Google.Message) (email : Google.Email)
    (graph_message : Microsoft.GraphMessage) (graph_email : Microsoft.Email) :
  (Google._parse_gmail_message b64decode_utf8 message = Ok email ->
   (Google.e_has_attachments email = true <->
    exists pl ps part f,
      Google.payload message = Some pl
      /\ Google.parts pl = Some ps
      /\ In part ps
      /\ Google.filename part = Some f
      /\ Py.strip f <> ""))
  /\ (Microsoft.parse_message graph_message = Ok graph_email ->
      Microsoft.e_hasAttachments graph_email
      = Microsoft.m_hasAttachments graph_message).
Proof.
  split; [|apply microsoft_has_attachments_is_the_flag].
  intros Hparse.
  destruct (gmail_has_attachments_is_the_scan _ _ _ Hparse)
    as (pl & Hpl & ->).
  destruct (Google.parts pl) as [ps|] eqn:Hps.
  - rewrite scan_parts_iff. split.
    + intros (part & Hin & Hfile). apply names_a_file_iff in Hfile.
      destruct Hfile as (f & Hf & Hstrip). now exists pl, ps, part, f.
    + intros (pl' & ps' & part & f & Hpl' & Hps' & Hin & Hf & Hstrip).
      rewrite Hpl in Hpl'. injection Hpl' as <-.
      rewrite Hps in Hps'. injection Hps' as <-.
      exists part. split; [exact Hin|]. apply names_a_file_iff. now exists f.
  - split; [discriminate|].
    intros (pl' & ps' & part & f & Hpl' & Hps' & _).
    rewrite Hpl in Hpl'. injection Hpl' as <-. congruence.
Qed.

Lemma has_attachments_of_both_variants_witness :
  (Google._parse_gmail_message (Adapter.b64decode_utf8 Examples.env)
     Examples.flat_message
   = Ok (Examples.email_of true)
   /\ (Google.e_has_attachments (Examples.email_of true) = true <->
       exists pl ps part f,
         Google.payload Examples.flat_message = Some pl
         /\ Google.parts pl = Some ps
         /\ In part ps
         /\ Google.filename part = Some f
         /\ Py.strip f <> ""))
  /\ (Microsoft.parse_message Examples.graph_message
      = Ok Examples.graph_email
      /\ Microsoft.e_hasAttachments Examples.graph_email
         = Microsoft.m_hasAttachments Examples.graph_message).
Proof.
  pose proof (has_attachments_of_both_variants
                (Adapter.b64decode_utf8 Examples.env)
                Examples.flat_message (Examples.email_of true)
                Examples.graph_message Examples.graph_email)
    as [Hgmail Hgraph].
  split; (split; [reflexivity|]).
  - exact (Hgmail eq_refl).
  - exact (Hgraph eq_refl).
Defined.

(** Two Gmail messages on which the reading "true exactly when some part
    of the substructure, at any depth, carries a non-empty filename"
    fails.  A file one level below a part of the payload is not seen: the
    message parses, a part of its substructure carries the filename
    ["report.pdf"], and [has_attachments] is false.  A filename that is
    one space is not empty, the part that carries it lies directly below
    the payload, and [has_attachments] is false. *)
Lemma has_attachments_counterexample :
  (Google._parse_gmail_message (Adapter.b64decode_utf8 Examples.env)
     Examples.nested_message
   = Ok (Examples.email_of false)
   /\ ~ (Google.e_has_attachments (Examples.email_of false) = true <->
         exists pl,
           Google.payload Examples.nested_message = Some pl
           /\ Google.subpart_carries_filename pl = true))
  /\ (Google._parse_gmail_message (Adapter.b64decode_utf8 Examples.env)
        Examples.space_message
      = Ok (Examples.email_of false)
      /\ ~ (Google.e_has_attachments (Examples.email_of false) = true <->
            exists pl ps part f,
              Google.payload Examples.space_message = Some pl
              /\ Google.parts pl = Some ps
              /\ In part ps
              /\ Google.filename part = Some f
              /\ f <> "")).
Proof.
  split.
  - split; [reflexivity|].
    intros [_ Hback].
    assert (H : exists pl,
               Google.payload Examples.nested_message = Some pl
               /\ Google.subpart_carries_filename pl = true)
      by (eexists; split; reflexivity).
    specialize (Hback H). discriminate.
  - split; [reflexivity|].
    intros [_ Hback].
    assert (H : exists pl ps part f,
               Google.payload Examples.space_message = Some pl
               /\ Google.parts pl = Some ps
               /\ In part ps
               /\ Google.filename part = Some f
               /\ f <> "").
    { eexists. exists [Examples.text_part; Examples.space_part].
      exists Examples.space_part, " ".
      split; [reflexivity|]. split; [reflexivity|].
      split; [right; left; reflexivity|].
      split; [reflexivity|discriminate]. }
    specialize (Hback H). discriminate.
Qed.

(** ** Renewal of the Google watches (C1) *)

(** C1, as the code has it.  [renew_subscription] of the Google variant
    ignores [expiration_date] and sends the two watch requests of a new
    subscription; the calendar watch carries the [subscription_id] it was
    given as the [userId] of the channel. *)
Theorem google_renew_sends_subscription_id_as_user
    (settings : Google.Settings) (uuid4 subscription_id expiration_date : string)
    (gmail_watch : Google.WatchResponse)
    (rest : list (Result Google.WatchResponse)) :
  fst (Google.renew_subscription settings uuid4 subscription_id
         expiration_date (Ok gmail_watch :: rest))
  = [Google.gmail_watch_request settings;
     Google.CalendarWatch "primary"
       {| Google.channel_id := uuid4;
          Google.channel_type := "web_hook";
          Google.address :=
            ("https://pubsub.googleapis.com/v1/projects/"
             ++ Google.GCP_PROJECT_ID settings ++ "/topics/"
             ++ Google.PUBSUB_TOPIC settings ++ ":publish")%string;
          Google.params_userId := subscription_id |}].
Proof.
  unfold Google.renew_subscription, Google.subscribe_to_realtime_events.
  destruct rest as [|[calendar_watch|e] rest]; reflexivity.
Qed.

(** A subscription made for ["user-1"] comes back with the channel id the
    adapter drew; renewing it under that id asks the provider for a watch
    whose [userId] is the channel id, not ["user-1"]. *)
Example google_renew_after_subscribe :
  let settings := Adapter.settings Examples.env in
  let uuid4 := Adapter.uuid4 Examples.env in
  let replies :=
    [Ok {| Google.w_historyId := Some "7001";
           Google.w_expiration := Some "1767225600000";
           Google.w_id := None;
           Google.w_resourceId := None |};
     Ok {| Google.w_historyId := None;
           Google.w_expiration := Some "1767225600000";
           Google.w_id := Some uuid4;
           Google.w_resourceId := Some "res-1" |}] in
  fst (Google.subscribe_to_realtime_events settings uuid4 "user-1" None replies)
  = [Google.gmail_watch_request settings;
     Google.calendar_watch_request settings uuid4 "user-1"]
  /\ fst (Google.renew_subscription settings uuid4 uuid4 "1767225600000"
            replies)
     = [Google.gmail_watch_request settings;
        Google.calendar_watch_request settings uuid4 uuid4]
  /\ Google.calendar_watch_request settings uuid4 uuid4
     <> Google.calendar_watch_request settings uuid4 "user-1".
Proof. repeat split. discriminate. Qed.

(** ** Errors raised to the caller (C8) *)

Lemma translate_raised {A} (prefix prov op : string) (o : Outcome A)
    (e : PyExc) :
  translate prefix prov op o = Raised e ->
  exists msg,
    e = Integration {| message := msg; provider := prov;
                       operation := Some op |}.
Proof.
  destruct o as [a|e'|]; try discriminate.
  cbn. intros [= <-]. eexists. reflexivity.
Qed.

Lemma translate_http_raised {A} (prefix op : string) (o : Outcome A)
    (e : PyExc) :
  Microsoft.translate_http prefix op o = Raised e ->
  exists msg,
    e = Integration {| message := msg; provider := Microsoft.provider_name;
                       operation := Some op |}.
Proof.
  destruct o as [a|e'|]; try discriminate.
  destruct e'; cbn; intros [= <-]; eexists; reflexivity.
Qed.

(** Brings the outcome of a run to the front and reads the exception off
    the handler that raised it. *)
Ltac read_handler H :=
  repeat match type of H with
         | context [match ?r with pair _ _ => _ end] => destruct r
         end;
  cbn [snd] in H;
  match type of H with
  | match ?o with _ => _ end = Some _ =>
      let T := fresh "T" in
      destruct o eqn:T; try discriminate;
      injection H as <-;
      first [apply translate_raised in T | apply translate_http_raised in T];
      destruct T as [msg ->]; exists msg
  end.

(** C8, as the code has it.  Whatever an adapter method raises to its
    caller is an [IntegrationException] that carries the name of the
    variant as [provider] and the name of an adapter operation as
    [operation]; except for the Google [renew_subscription], the operation
    is the method called.  The exception has no [kind]. *)
Theorem raised_errors_carry_provider_and_operation (env : Adapter.Env)
    (c : Adapter.Call) (e : PyExc) :
  Adapter.raised env c = Some e ->
  exists msg op,
    e = Integration
          {| message := msg;
             provider := Adapter.provider_name (Adapter.provider_of c);
             operation := Some (Adapter.operation_name op) |}
    /\ ((forall s x script, c <> Adapter.GoogleRenew s x script) ->
        op = Adapter.operation_of c)
    /\ getattr e "kind" = None.
Proof.
  destruct c;
    cbn [Adapter.raised Adapter.provider_of Adapter.operation_of
         Adapter.provider_name];
    unfold Adapter.error_of, Google.get_contacts, Google.get_email_content,
      Google.get_calendar_event, Google.renew_subscription,
      Google.subscribe_to_realtime_events, Microsoft.get_contacts,
      Microsoft.get_email_content, Microsoft.get_calendar_event,
      Microsoft.subscribe_to_realtime_events, Microsoft.renew_subscription;
    intros H; read_handler H.
  - exists Adapter.get_contacts. now repeat split.
  - exists Adapter.get_email_content. now repeat split.
  - exists Adapter.get_calendar_event. now repeat split.
  - exists Adapter.subscribe_to_realtime_events. now repeat split.
  - exists Adapter.subscribe_to_realtime_events. repeat split.
    intros Hne. exfalso. eapply Hne. reflexivity.
  - exists Adapter.get_contacts. now repeat split.
  - exists Adapter.get_email_content. now repeat split.
  - exists Adapter.get_calendar_event. now repeat split.
  - exists Adapter.subscribe_to_realtime_events. now repeat split.
  - exists Adapter.renew_subscription. now repeat split.
Qed.

Lemma raised_errors_carry_provider_and_operation_witness :
  Adapter.raised Examples.env
    (Adapter.MicrosoftContacts None
       [Err (HTTPStatusError 503 "Server error '503 Service Unavailable'")])
  = Some (Integration
            {| message := "Failed to fetch contacts: HTTP 503";
               provider := "microsoft_365";
               operation := Some "get_contacts" |})
  /\ exists msg op,
      Integration
        {| message := "Failed to fetch contacts: HTTP 503";
           provider := "microsoft_365";
           operation := Some "get_contacts" |}
      = Integration
          {| message := msg;
             provider := "microsoft_365";
             operation := Some (Adapter.operation_name op) |}
      /\ ((forall s x script,
              Adapter.MicrosoftContacts None
                [Err (HTTPStatusError 503
                        "Server error '503 Service Unavailable'")]
              <> Adapter.GoogleRenew s x script) ->
          op = Adapter.get_contacts)
      /\ getattr
           (Integration
              {| message := "Failed to fetch contacts: HTTP 503";
                 provider := "microsoft_365";
                 operation := Some "get_contacts" |}) "kind" = None.
Proof.
  split; [reflexivity|].
  exact (raised_errors_carry_provider_and_operation Examples.env
           (Adapter.MicrosoftContacts None
              [Err (HTTPStatusError 503
                      "Server error '503 Service Unavailable'")])
           _ eq_refl).
Defined.

(** The exception of a 503 on the first page carries the tags [provider]
    and [operation] and no [kind], so no value of the taxonomy either. *)
Lemma raised_error_without_kind_counterexample :
  let e :=
    Integration {| message := "Failed to fetch contacts: HTTP 503";
                   provider := "microsoft_365";
                   operation := Some "get_contacts" |} in
  Adapter.raised Examples.env
    (Adapter.MicrosoftContacts None
       [Err (HTTPStatusError 503 "Server error '503 Service Unavailable'")])
  = Some e
  /\ Adapter.tag e "provider" = Some "microsoft_365"
  /\ Adapter.tag e "operation" = Some "get_contacts"
  /\ ~ (exists kind,
          Adapter.tag e "kind" = Some kind /\ In kind Adapter.taxonomy).
Proof.
  cbn zeta. repeat split. intros (kind & Hkind & _). discriminate.
Qed.

(** * Further properties of the adapters *)

(** ** A sync over several pages *)

Lemma collect_kept {X} (parse : X -> option Contact) (page : list X) :
  forall contacts,
    fold_left
      (fun acc x =>
         match parse x with
         | Some contact_data => acc ++ [contact_data]
         | None => acc
         end)
      page contacts
    = contacts ++ Derived.kept parse page.
Proof.
  induction page as [|x page IH]; intros contacts; cbn.
  - now rewrite app_nil_r.
  - rewrite IH. destruct (parse x); [|reflexivity].
    now rewrite <- app_assoc.
Qed.

Lemma kept_app {X} (parse : X -> option Contact) (l1 l2 : list X) :
  Derived.kept parse (l1 ++ l2)
  = Derived.kept parse l1 ++ Derived.kept parse l2.
Proof. apply flat_map_app. Qed.

Lemma google_contacts_cons (page : Google.ListResponse)
    (pages : list Google.ListResponse) :
  Derived.google_contacts (page :: pages)
  = Derived.kept Google._parse_google_contact (Google.connections page)
    ++ Derived.google_contacts pages.
Proof. unfold Derived.google_contacts. cbn [flat_map]. apply kept_app. Qed.

Lemma microsoft_contacts_cons (page : Microsoft.ContactsPage)
    (pages : list Microsoft.ContactsPage) :
  Derived.microsoft_contacts (page :: pages)
  = Derived.kept Microsoft._parse_microsoft_contact (Microsoft.value page)
    ++ Derived.microsoft_contacts pages.
Proof. unfold Derived.microsoft_contacts. cbn [flat_map]. apply kept_app. Qed.

Lemma google_loop_over_pages (sync_token : option string)
    (pages : list Google.ListResponse) (last : Google.ListResponse) :
  Forall (fun page => Py.truthy (Google.nextPageToken page) = true) pages ->
  Py.truthy (Google.nextPageToken last) = false ->
  forall next_page_token contacts,
    Google.contacts_loop sync_token next_page_token contacts
      (map Ok pages ++ [Ok last])
    = (Google.build_params sync_token next_page_token
         :: map (fun page =>
                   Google.build_params sync_token (Google.nextPageToken page))
              pages,
       Returned (contacts ++ Derived.google_contacts (pages ++ [last]),
                 Google.nextSyncToken last)).
Proof.
  intros Hpages Hlast.
  induction Hpages as [|page pages Hpage _ IH];
    intros npt contacts; cbn [map app Google.contacts_loop].
  - rewrite Hlast. unfold Google.process_connections.
    rewrite collect_kept, google_contacts_cons.
    unfold Derived.google_contacts. cbn. now rewrite app_nil_r.
  - rewrite Hpage, IH. unfold Google.process_connections.
    rewrite collect_kept, google_contacts_cons, app_assoc. reflexivity.
Qed.

Lemma google_loop_error (sync_token : option string)
    (pages : list Google.ListResponse) (e : PyExc)
    (rest : list (Result Google.ListResponse)) :
  Forall (fun page => Py.truthy (Google.nextPageToken page) = true) pages ->
  Google.is_gone e && Py.truthy sync_token = false ->
  forall next_page_token contacts,
    Google.contacts_loop sync_token next_page_token contacts
      (map Ok pages ++ Err e :: rest)
    = (Google.build_params sync_token next_page_token
         :: map (fun page =>
                   Google.build_params sync_token (Google.nextPageToken page))
              pages,
       Raised e).
Proof.
  intros Hpages He.
  induction Hpages as [|page pages Hpage _ IH];
    intros npt contacts; cbn [map app Google.contacts_loop].
  - now rewrite He.
  - now rewrite Hpage, IH.
Qed.

Lemma google_loop_gone (sync_token : option string)
    (pages : list Google.ListResponse) (text : string)
    (rest : list (Result Google.ListResponse)) :
  Forall (fun page => Py.truthy (Google.nextPageToken page) = true) pages ->
  Py.truthy sync_token = true ->
  forall next_page_token contacts,
    Google.contacts_loop sync_token next_page_token contacts
      (map Ok pages ++ Err (HttpError 410 text) :: rest)
    = ((Google.build_params sync_token next_page_token
          :: map (fun page =>
                    Google.build_params sync_token
                      (Google.nextPageToken page))
               pages)
       ++ fst (Google.get_contacts None rest),
       snd (Google.get_contacts None rest)).
Proof.
  intros Hpages Htok.
  induction Hpages as [|page pages Hpage _ IH];
    intros npt contacts; cbn [map app Google.contacts_loop].
  - unfold Google.get_contacts. cbn [Google.is_gone]. rewrite Htok.
    cbn [Z.eqb Pos.eqb andb].
    now destruct (Google.contacts_loop None None [] rest).
  - now rewrite Hpage, IH.
Qed.

(** X1.  Over pages that each announce a next page and a last page that
    does not, [get_contacts] of the Google variant sends one request per
    page and returns the contacts it keeps of all pages, in the order of
    the pages, with the [nextSyncToken] of the last page. *)
Theorem google_sync_over_pages (sync_token : option string)
    (pages : list Google.ListResponse) (last : Google.ListResponse) :
  Forall (fun page => Py.truthy (Google.nextPageToken page) = true) pages ->
  Py.truthy (Google.nextPageToken last) = false ->
  Google.get_contacts sync_token (map Ok pages ++ [Ok last])
  = (Derived.google_requests sync_token pages,
     Returned (Derived.google_contacts (pages ++ [last]),
               Google.nextSyncToken last)).
Proof.
  intros Hpages Hlast. unfold Google.get_contacts.
  now rewrite (google_loop_over_pages sync_token pages last Hpages Hlast).
Qed.

Lemma google_sync_over_pages_witness :
  Google.get_contacts None [Ok Examples.first_page; Ok Examples.last_page]
  = (Derived.google_requests None [Examples.first_page],
     Returned ([Examples.ada_contact], Some "S2")).
Proof.
  apply (google_sync_over_pages None [Examples.first_page]
           Examples.last_page).
  - constructor; [reflexivity|constructor].
  - reflexivity.
Defined.

(** X2.  When a request fails and the failure is not a 410 on a sync with
    a sync token, [get_contacts] of the Google variant raises: the contacts
    of the pages before are not returned, and the message is that of the
    failure behind the prefix. *)
Theorem google_sync_fails_whole (sync_token : option string)
    (pages : list Google.ListResponse) (e : PyExc)
    (rest : list (Result Google.ListResponse)) :
  Forall (fun page => Py.truthy (Google.nextPageToken page) = true) pages ->
  Google.is_gone e && Py.truthy sync_token = false ->
  Google.get_contacts sync_token (map Ok pages ++ Err e :: rest)
  = (Derived.google_requests sync_token pages,
     Raised (Integration
               {| message := ("Failed to fetch contacts: " ++ str e)%string;
                  provider := "google_workspace";
                  operation := Some "get_contacts" |})).
Proof.
  intros Hpages He. unfold Google.get_contacts.
  now rewrite (google_loop_error sync_token pages e rest Hpages He).
Qed.

Lemma google_sync_fails_whole_witness :
  Google.get_contacts None
    [Ok Examples.first_page; Err (HttpError 500 "backend error")]
  = (Derived.google_requests None [Examples.first_page],
     Raised (Integration
               {| message := "Failed to fetch contacts: backend error";
                  provider := "google_workspace";
                  operation := Some "get_contacts" |})).
Proof.
  apply (google_sync_fails_whole None [Examples.first_page]
           (HttpError 500 "backend error") []).
  - constructor; [reflexivity|constructor].
  - reflexivity.
Defined.

(** X3.  A 410 in the middle of an incremental sync of the Google variant
    drops the contacts gathered so far: the call ends as the full sync over
    the remaining replies ends, its requests following the incremental
    ones. *)
Theorem google_restart_discards_pages (tok text : string)
    (pages : list Google.ListResponse)
    (rest : list (Result Google.ListResponse)) :
  tok <> "" ->
  Forall (fun page => Py.truthy (Google.nextPageToken page) = true) pages ->
  Google.get_contacts (Some tok)
    (map Ok pages ++ Err (HttpError 410 text) :: rest)
  = (Derived.google_requests (Some tok) pages
       ++ fst (Google.get_contacts None rest),
     translate Google.contacts_prefix Google.provider_name "get_contacts"
       (snd (Google.get_contacts None rest))).
Proof.
  intros Htok Hpages. apply truthy_Some in Htok. unfold Google.get_contacts at 1.
  now rewrite (google_loop_gone (Some tok) pages text rest Hpages Htok).
Qed.

Lemma google_restart_discards_pages_witness :
  Google.get_contacts (Some "S1")
    [Ok Examples.first_page; Err (HttpError 410 "Sync token is expired");
     Ok Examples.last_page]
  = (Derived.google_requests (Some "S1") [Examples.first_page]
       ++ [Google.build_params None None],
     Returned ([], Some "S2")).
Proof.
  apply (google_restart_discards_pages "S1" "Sync token is expired"
           [Examples.first_page] [Ok Examples.last_page]).
  - discriminate.
  - constructor; [reflexivity|constructor].
Defined.

(** X4.  When the full sync that follows a 410 fails at once, the caller
    sees the prefix of the message twice: the exception of the inner call
    is translated again by the outer one. *)
Theorem google_restart_failure_is_translated_twice (tok text : string)
    (e : PyExc) (rest : list (Result Google.ListResponse)) :
  tok <> "" ->
  Google.get_contacts (Some tok) (Err (HttpError 410 text) :: Err e :: rest)
  = ([Google.build_params (Some tok) None; Google.build_params None None],
     Raised (Integration
               {| message :=
                    ("Failed to fetch contacts: Failed to fetch contacts: "
                     ++ str e)%string;
                  provider := "google_workspace";
                  operation := Some "get_contacts" |})).
Proof.
  intros Htok. rewrite google_stale_token_restarts by exact Htok.
  unfold Google.get_contacts. cbn [Google.contacts_loop Py.truthy].
  now rewrite andb_false_r.
Qed.

Lemma google_restart_failure_is_translated_twice_witness :
  Google.get_contacts (Some "S1")
    [Err (HttpError 410 "Sync token is expired");
     Err (HttpError 410 "Sync token is expired")]
  = ([Google.build_params (Some "S1") None; Google.build_params None None],
     Raised (Integration
               {| message :=
                    "Failed to fetch contacts: Failed to fetch contacts: Sync token is expired";
                  provider := "google_workspace";
                  operation := Some "get_contacts" |})).
Proof.
  apply (google_restart_failure_is_translated_twice "S1"
           "Sync token is expired"
           (HttpError 410 "Sync token is expired") []).
  discriminate.
Defined.

Lemma google_empty_token_loop (script : list (Result Google.ListResponse)) :
  forall next_page_token contacts,
    Google.contacts_loop (Some "") next_page_token contacts script
    = Google.contacts_loop None next_page_token contacts script.
Proof.
  induction script as [|[response|e] script IH]; intros npt contacts;
    cbn [Google.contacts_loop].
  - reflexivity.
  - now rewrite IH.
  - cbn [Py.truthy String.eqb negb]. now rewrite !andb_false_r.
Qed.

(** X5.  An empty sync token is no sync token: on either variant
    [get_contacts("")] runs as the full sync [get_contacts(None)] does,
    request by request, and a 410 is not recovered from. *)
Theorem empty_sync_token_is_full_sync
    (urlparse_query : string -> Result string)
    (parse_qs : string -> Py.dict (list string))
    (google_script : list (Result Google.ListResponse))
    (microsoft_script : list (Result Microsoft.ContactsPage)) :
  Google.get_contacts (Some "") google_script
  = Google.get_contacts None google_script
  /\ Microsoft.get_contacts urlparse_query parse_qs (Some "") microsoft_script
     = Microsoft.get_contacts urlparse_query parse_qs None microsoft_script.
Proof.
  split; [|reflexivity].
  unfold Google.get_contacts. now rewrite google_empty_token_loop.
Qed.

Lemma microsoft_loop_over_pages (pages : list Microsoft.ContactsPage)
    (last : Microsoft.ContactsPage) :
  Forall (fun page => Py.truthy (Microsoft.nextLink page) = true) pages ->
  Py.truthy (Microsoft.nextLink last) = false ->
  forall url contacts,
    Microsoft.contacts_loop url contacts (map Ok pages ++ [Ok last])
    = (url :: map Derived.link_of pages,
       Returned (contacts ++ Derived.microsoft_contacts (pages ++ [last]),
                 Microsoft.deltaLink last)).
Proof.
  intros Hpages Hlast.
  induction Hpages as [|page pages Hpage _ IH]; intros url contacts;
    cbn [map app].
  - rewrite microsoft_last_page_stops by exact Hlast.
    unfold Microsoft.process_contacts.
    rewrite collect_kept, microsoft_contacts_cons.
    unfold Derived.microsoft_contacts. cbn. now rewrite app_nil_r.
  - cbn [Microsoft.contacts_loop]. unfold Derived.link_of at 1.
    destruct (Microsoft.nextLink page) as [next|]; [|discriminate].
    rewrite Hpage, IH. unfold Microsoft.process_contacts.
    rewrite collect_kept, microsoft_contacts_cons, app_assoc. reflexivity.
Qed.

Lemma microsoft_loop_error (pages : list Microsoft.ContactsPage)
    (e : PyExc) (rest : list (Result Microsoft.ContactsPage)) :
  Forall (fun page => Py.truthy (Microsoft.nextLink page) = true) pages ->
  forall url contacts,
    Microsoft.contacts_loop url contacts (map Ok pages ++ Err e :: rest)
    = (url :: map Derived.link_of pages, Raised e).
Proof.
  intros Hpages.
  induction Hpages as [|page pages Hpage _ IH]; intros url contacts;
    cbn [map app Microsoft.contacts_loop]; [reflexivity|].
  unfold Derived.link_of at 1.
  destruct (Microsoft.nextLink page) as [next|]; [|discriminate].
  now rewrite Hpage, IH.
Qed.

(** X6.  Over pages that each link to a next page and a last page whose
    delta link has a [$deltatoken] parameter, [get_contacts] of the
    Microsoft variant requests the first URL and then every linked URL,
    and returns the contacts it keeps of all pages, in the order of the
    pages, with the first value of that parameter as next sync token. *)
Theorem microsoft_sync_over_pages
    (urlparse_query : string -> Result string)
    (parse_qs : string -> Py.dict (list string))
    (sync_token : option string)
    (pages : list Microsoft.ContactsPage) (last : Microsoft.ContactsPage)
    (link query tok : string) (toks : list string) :
  Forall (fun page => Py.truthy (Microsoft.nextLink page) = true) pages ->
  Py.truthy (Microsoft.nextLink last) = false ->
  Microsoft.deltaLink last = Some link ->
  link <> "" ->
  urlparse_query link = Ok query ->
  Py.get (parse_qs query) "$deltatoken" = Some (tok :: toks) ->
  Microsoft.get_contacts urlparse_query parse_qs sync_token
    (map Ok pages ++ [Ok last])
  = (Derived.microsoft_requests sync_token pages,
     Returned (Derived.microsoft_contacts (pages ++ [last]), Some tok)).
Proof.
  intros Hpages Hlast Hlink Hne Hquery Hget. apply truthy_Some in Hne.
  unfold Microsoft.get_contacts. rewrite microsoft_initial_url_truthy.
  rewrite (microsoft_loop_over_pages pages last Hpages Hlast).
  unfold Microsoft.delta_token_of. rewrite Hlink, Hne, Hquery.
  cbn [bind]. now rewrite Hget.
Qed.

Lemma microsoft_sync_over_pages_witness :
  Microsoft.get_contacts Examples.query_of Examples.params_of (Some "old")
    [Ok Examples.graph_first_page; Ok Examples.graph_delta_page]
  = (Derived.microsoft_requests (Some "old") [Examples.graph_first_page],
     Returned
       (Derived.microsoft_contacts
          [Examples.graph_first_page; Examples.graph_delta_page],
        Some "abc")).
Proof.
  apply (microsoft_sync_over_pages Examples.query_of Examples.params_of
           (Some "old") [Examples.graph_first_page] Examples.graph_delta_page
           Examples.delta_link "$deltatoken=abc" "abc" []).
  - constructor; [reflexivity|constructor].
  - reflexivity.
  - reflexivity.
  - discriminate.
  - reflexivity.
  - reflexivity.
Defined.

(** X7.  When Graph answers a page request with an error status,
    [get_contacts] of the Microsoft variant raises and the contacts of the
    pages before are not returned; the message names the status code and
    not the text of the HTTP library. *)
Theorem microsoft_sync_fails_whole
    (urlparse_query : string -> Result string)
    (parse_qs : string -> Py.dict (list string))
    (sync_token : option string) (pages : list Microsoft.ContactsPage)
    (status_code : Z) (text : string)
    (rest : list (Result Microsoft.ContactsPage)) :
  Forall (fun page => Py.truthy (Microsoft.nextLink page) = true) pages ->
  Microsoft.get_contacts urlparse_query parse_qs sync_token
    (map Ok pages ++ Err (HTTPStatusError status_code text) :: rest)
  = (Derived.microsoft_requests sync_token pages,
     Raised (Integration
               {| message := ("Failed to fetch contacts: HTTP "
                              ++ Py.str_int status_code)%string;
                  provider := "microsoft_365";
                  operation := Some "get_contacts" |})).
Proof.
  intros Hpages. unfold Microsoft.get_contacts.
  rewrite microsoft_initial_url_truthy.
  now rewrite (microsoft_loop_error pages _ rest Hpages).
Qed.

Lemma microsoft_sync_fails_whole_witness :
  Microsoft.get_contacts Examples.query_of Examples.params_of None
    [Ok Examples.graph_first_page;
     Err (HTTPStatusError 429 "Client error '429 Too Many Requests'")]
  = (Derived.microsoft_requests None [Examples.graph_first_page],
     Raised (Integration
               {| message := "Failed to fetch contacts: HTTP 429";
                  provider := "microsoft_365";
                  operation := Some "get_contacts" |})).
Proof.
  apply (microsoft_sync_fails_whole Examples.query_of Examples.params_of
           None [Examples.graph_first_page] 429
           "Client error '429 Too Many Requests'" []).
  constructor; [reflexivity|constructor].
Defined.

(** X8.  When [urlparse] raises on the delta link of the last page, the
    whole [get_contacts] call of the Microsoft variant raises, after all
    pages have been fetched. *)
Theorem microsoft_unparsable_delta_link_fails
    (urlparse_query : string -> Result string)
    (parse_qs : string -> Py.dict (list string))
    (sync_token : option string)
    (pages : list Microsoft.ContactsPage) (last : Microsoft.ContactsPage)
    (link text : string) :
  Forall (fun page => Py.truthy (Microsoft.nextLink page) = true) pages ->
  Py.truthy (Microsoft.nextLink last) = false ->
  Microsoft.deltaLink last = Some link ->
  link <> "" ->
  urlparse_query link = Err (OtherException text) ->
  Microsoft.get_contacts urlparse_query parse_qs sync_token
    (map Ok pages ++ [Ok last])
  = (Derived.microsoft_requests sync_token pages,
     Raised (Integration
               {| message := ("Failed to fetch contacts: " ++ text)%string;
                  provider := "microsoft_365";
                  operation := Some "get_contacts" |})).
Proof.
  intros Hpages Hlast Hlink Hne Hquery. apply truthy_Some in Hne.
  unfold Microsoft.get_contacts. rewrite microsoft_initial_url_truthy.
  rewrite (microsoft_loop_over_pages pages last Hpages Hlast).
  unfold Microsoft.delta_token_of. now rewrite Hlink, Hne, Hquery.
Qed.

Lemma microsoft_unparsable_delta_link_fails_witness :
  Microsoft.get_contacts Examples.query_of Examples.params_of None
    [Ok Examples.graph_first_page;
     Ok {| Microsoft.value := [Examples.grace];
           Microsoft.nextLink := None;
           Microsoft.deltaLink := Some "https://[graph/delta" |}]
  = (Derived.microsoft_requests None [Examples.graph_first_page],
     Raised (Integration
               {| message := "Failed to fetch contacts: Invalid IPv6 URL";
                  provider := "microsoft_365";
                  operation := Some "get_contacts" |})).
Proof.
  apply (microsoft_unparsable_delta_link_fails Examples.query_of
           Examples.params_of None [Examples.graph_first_page]
           {| Microsoft.value := [Examples.grace];
              Microsoft.nextLink := None;
              Microsoft.deltaLink := Some "https://[graph/delta" |}
           "https://[graph/delta" "Invalid IPv6 URL").
  - constructor; [reflexivity|constructor].
  - reflexivity.
  - reflexivity.
  - discriminate.
  - reflexivity.
Defined.

(** ** What a returned contact looks like *)

Section Invariant.

Variable P : Contact -> Prop.

Lemma kept_invariant {X} (parse : X -> option Contact) (page : list X) :
  (forall x c, parse x = Some c -> P c) -> Forall P (Derived.kept parse page).
Proof.
  intros Hparse. apply Forall_flat_map, Forall_forall. intros x _.
  destruct (parse x) as [c|] eqn:E; [|constructor].
  constructor; [eapply Hparse, E|constructor].
Qed.

Lemma google_loop_invariant (script : list (Result Google.ListResponse)) :
  (forall x c, Google._parse_google_contact x = Some c -> P c) ->
  forall sync_token next_page_token contacts reqs cs tok,
    Forall P contacts ->
    Google.contacts_loop sync_token next_page_token contacts script
    = (reqs, Returned (cs, tok)) ->
    Forall P cs.
Proof.
  intros Hparse.
  induction script as [|[response|e] script IH];
    intros st npt contacts reqs cs tok Hacc; cbn [Google.contacts_loop].
  - discriminate.
  - assert (Hpage : Forall P (Google.process_connections contacts
                               (Google.connections response))).
    { unfold Google.process_connections. rewrite collect_kept.
      apply Forall_app. split; [exact Hacc|now apply kept_invariant]. }
    destruct (Py.truthy (Google.nextPageToken response)).
    + destruct (Google.contacts_loop st _ _ script) as [reqs' out] eqn:L.
      intros [= <- ->]. eapply IH; [exact Hpage|exact L].
    + intros [= <- <- <-]. exact Hpage.
  - destruct (Google.is_gone e && Py.truthy st); [|discriminate].
    destruct (Google.contacts_loop None None [] script) as [reqs' out] eqn:L.
    destruct out as [[cs' tok']| |]; cbn; intros [= <- <- <-].
    eapply IH; [constructor|exact L].
Qed.

Lemma microsoft_loop_invariant (script : list (Result Microsoft.ContactsPage)) :
  (forall x c, Microsoft._parse_microsoft_contact x = Some c -> P c) ->
  forall url contacts reqs cs link,
    Forall P contacts ->
    Microsoft.contacts_loop url contacts script = (reqs, Returned (cs, link)) ->
    Forall P cs.
Proof.
  intros Hparse.
  induction script as [|[data|e] script IH];
    intros url contacts reqs cs link Hacc; cbn [Microsoft.contacts_loop];
    try discriminate.
  assert (Hpage : Forall P (Microsoft.process_contacts contacts
                             (Microsoft.value data))).
  { unfold Microsoft.process_contacts. rewrite collect_kept.
    apply Forall_app. split; [exact Hacc|now apply kept_invariant]. }
  destruct (Microsoft.nextLink data) as [next|].
  - destruct (Py.truthy (Some next)).
    + destruct (Microsoft.contacts_loop next _ script) as [reqs' out] eqn:L.
      intros [= <- ->]. eapply IH; [exact Hpage|exact L].
    + intros [= <- <- <-]. exact Hpage.
  - intros [= <- <- <-]. exact Hpage.
Qed.

Lemma google_get_contacts_invariant (sync_token : option string)
    (script : list (Result Google.ListResponse))
    (reqs : list Google.ListParams) (cs : list Contact)
    (tok : option string) :
  (forall x c, Google._parse_google_contact x = Some c -> P c) ->
  Google.get_contacts sync_token script = (reqs, Returned (cs, tok)) ->
  Forall P cs.
Proof.
  intros Hparse. unfold Google.get_contacts.
  destruct (Google.contacts_loop sync_token None [] script)
    as [reqs' out] eqn:L.
  destruct out as [[cs' tok']| |]; cbn; intros [= <- <- <-].
  eapply google_loop_invariant; [exact Hparse|constructor|exact L].
Qed.

Lemma microsoft_get_contacts_invariant
    (urlparse_query : string -> Result string)
    (parse_qs : string -> Py.dict (list string))
    (sync_token : option string)
    (script : list (Result Microsoft.ContactsPage))
    (reqs : list string) (cs : list Contact) (tok : option string) :
  (forall x c, Microsoft._parse_microsoft_contact x = Some c -> P c) ->
  Microsoft.get_contacts urlparse_query parse_qs sync_token script
  = (reqs, Returned (cs, tok)) ->
  Forall P cs.
Proof.
  intros Hparse. unfold Microsoft.get_contacts.
  rewrite microsoft_initial_url_truthy.
  destruct (Microsoft.contacts_loop _ [] script) as [reqs' out] eqn:L.
  destruct out as [[cs' link]|e|]; cbn.
  - destruct (Microsoft.delta_token_of _ _ link) as [t|e]; cbn.
    + intros [= <- <- <-].
      eapply microsoft_loop_invariant; [exact Hparse|constructor|exact L].
    + destruct e; discriminate.
  - destruct e; discriminate.
  - discriminate.
Qed.

End Invariant.

Lemma microsoft_phones_usable (phones : Microsoft.Phones) :
  Forall (fun i => Py.truthy (id_value i) = true /\ id_type i = "phone")
    (Microsoft.phones_of phones).
Proof.
  destruct phones as [|l|s]; cbn [Microsoft.phones_of].
  - constructor.
  - apply Forall_flat_map, Forall_forall. intros [p|] _; [|constructor].
    destruct (Py.truthy (Some p)) eqn:E; [|constructor].
    constructor; [now split|constructor].
  - destruct (Py.truthy (Some s)) eqn:E; [|constructor].
    constructor; [now split|constructor].
Qed.

Lemma microsoft_identifiers_usable (contact : Microsoft.GraphContact)
    (c : Contact) :
  Microsoft._parse_microsoft_contact contact = Some c ->
  Forall (fun i => Py.truthy (id_value i) = true /\ Derived.email_or_phone i)
    (identifiers c).
Proof.
  unfold Microsoft._parse_microsoft_contact.
  set (ids := flat_map _ (Microsoft.emailAddresses contact) ++ _).
  assert (Hids : Forall (fun i => Py.truthy (id_value i) = true
                                  /\ Derived.email_or_phone i) ids).
  { apply Forall_app. split.
    - apply Forall_flat_map, Forall_forall. intros email _.
      destruct (Py.truthy (Microsoft.address email)) eqn:E; [|constructor].
      constructor; [|constructor]. split; [exact E|now left].
    - apply Forall_flat_map, Forall_forall. intros phones _.
      eapply Forall_impl; [|apply microsoft_phones_usable].
      intros i [Hv Ht]. split; [exact Hv|now right]. }
  destruct ids; [discriminate|]. now intros [= <-].
Qed.

(** X9.  Every identifier of every contact that [get_contacts] of the
    Microsoft variant returns has a non-empty value: addresses and phone
    numbers that are missing or empty are left out. *)
Theorem microsoft_identifiers_have_values
    (urlparse_query : string -> Result string)
    (parse_qs : string -> Py.dict (list string))
    (sync_token : option string)
    (script : list (Result Microsoft.ContactsPage))
    (reqs : list string) (contacts : list Contact) (tok : option string) :
  Microsoft.get_contacts urlparse_query parse_qs sync_token script
  = (reqs, Returned (contacts, tok)) ->
  Forall (fun c => Forall (fun i => exists v, id_value i = Some v /\ v <> "")
                     (identifiers c))
    contacts.
Proof.
  apply microsoft_get_contacts_invariant. intros contact c Hc.
  eapply Forall_impl; [|apply (microsoft_identifiers_usable _ _ Hc)].
  intros i [Hv _]. destruct (id_value i) as [v|]; [|discriminate].
  exists v. split; [reflexivity|now apply truthy_Some].
Qed.

Lemma microsoft_identifiers_have_values_witness :
  Forall (fun c => Forall (fun i => exists v, id_value i = Some v /\ v <> "")
                     (identifiers c))
    (Derived.microsoft_contacts
       [Examples.graph_first_page; Examples.graph_delta_page]).
Proof.
  apply (microsoft_identifiers_have_values Examples.query_of
           Examples.params_of (Some "old")
           [Ok Examples.graph_first_page; Ok Examples.graph_delta_page]
           (Derived.microsoft_requests (Some "old")
              [Examples.graph_first_page])
           _ (Some "abc")).
  reflexivity.
Defined.

Lemma google_identifiers_typed (connection : Google.Person) (c : Contact) :
  Google._parse_google_contact connection = Some c ->
  Forall Derived.email_or_phone (identifiers c).
Proof.
  unfold Google._parse_google_contact.
  set (ids := map _ (Google.emailAddresses connection) ++ _).
  assert (Hids : Forall Derived.email_or_phone ids).
  { apply Forall_app. split; apply Forall_map, Forall_forall; intros x _;
      [now left|now right]. }
  destruct ids; [discriminate|]. now intros [= <-].
Qed.

(** X10.  Whatever the variant, every identifier of a contact that
    [get_contacts] returns is of type ["email"] or ["phone"]. *)
Theorem identifiers_are_emails_or_phones (env : Adapter.Env)
    (c : Adapter.Call) (contacts : list Contact) :
  Adapter.contacts_returned env c = Some contacts ->
  Forall (fun contact =>
            Forall (fun i => id_type i = "email" \/ id_type i = "phone")
              (identifiers contact))
    contacts.
Proof.
  destruct c as [tok script| | | | |tok script| | | |]; cbn; try discriminate.
  - destruct (Google.get_contacts tok script) as [reqs [[cs t]| |]] eqn:G;
      cbn; try discriminate.
    intros [= <-].
    eapply (google_get_contacts_invariant _ tok script reqs cs t);
      [exact google_identifiers_typed|exact G].
  - destruct (Microsoft.get_contacts _ _ tok script)
      as [reqs [[cs t]| |]] eqn:M; cbn; try discriminate.
    intros [= <-].
    eapply (microsoft_get_contacts_invariant _ _ _ tok script reqs cs t);
      [|exact M].
    intros contact c Hc.
    eapply Forall_impl; [|apply (microsoft_identifiers_usable _ _ Hc)].
    now intros i [_ Ht].
Qed.

Lemma identifiers_are_emails_or_phones_witness :
  Forall (fun contact =>
            Forall (fun i => id_type i = "email" \/ id_type i = "phone")
              (identifiers contact))
    [Examples.ada_contact].
Proof.
  apply (identifiers_are_emails_or_phones Examples.env
           (Adapter.GoogleContacts None
              [Ok Examples.first_page; Ok Examples.last_page])).
  reflexivity.
Defined.

(** X11.  [_parse_google_contact] drops a connection exactly when it has
    neither an e-mail entry nor a phone entry; an entry without a value is
    enough to keep the contact. *)
Theorem google_contact_dropped_iff (connection : Google.Person) :
  Google._parse_google_contact connection = None <->
  Google.emailAddresses connection = []
  /\ Google.phoneNumbers connection = [].
Proof.
  unfold Google._parse_google_contact.
  destruct (Google.emailAddresses connection) as [|email emails];
    destruct (Google.phoneNumbers connection) as [|phone phones]; cbn;
    split; intros H;
    first [discriminate H | now split | destruct H; discriminate].
Qed.

Lemma flat_map_nil_iff {A B} (f : A -> list B) (l : list A) :
  flat_map f l = [] <-> Forall (fun x => f x = []) l.
Proof.
  induction l as [|x l IH]; cbn.
  - split; [constructor|reflexivity].
  - split.
    + intros H. apply app_eq_nil in H as [Hx Hl].
      constructor; [exact Hx|now apply IH].
    + intros H. inversion H as [|? ? Hx Hl]; subst.
      rewrite Hx. now apply IH.
Qed.

Lemma phones_of_nil_iff (phones : Microsoft.Phones) :
  Microsoft.phones_of phones = [] <-> Derived.no_phone phones.
Proof.
  destruct phones as [|l|s]; cbn [Microsoft.phones_of Derived.no_phone].
  - tauto.
  - rewrite flat_map_nil_iff. split; intros H; eapply Forall_impl; try exact H.
    + intros [p|]; [|reflexivity].
      destruct (Py.truthy (Some p)); [discriminate|reflexivity].
    + intros [p|] Hp; [|reflexivity]. now rewrite Hp.
  - destruct (Py.truthy (Some s)) eqn:E.
    + apply truthy_Some in E. split; [discriminate|contradiction].
    + split; [|reflexivity]. intros _.
      unfold Py.truthy in E. destruct (String.eqb_spec s ""); [assumption|].
      discriminate.
Qed.

(** X12.  [_parse_microsoft_contact] drops a contact exactly when none of
    its e-mail entries has a non-empty address and none of the fields
    [businessPhones], [homePhones] and [mobilePhone] has a non-empty
    number. *)
Theorem microsoft_contact_dropped_iff (contact : Microsoft.GraphContact) :
  Microsoft._parse_microsoft_contact contact = None <->
  Forall (fun email => Py.truthy (Microsoft.address email) = false)
    (Microsoft.emailAddresses contact)
  /\ Derived.no_phone (Microsoft.businessPhones contact)
  /\ Derived.no_phone (Microsoft.homePhones contact)
  /\ Derived.no_phone (Microsoft.mobilePhone contact).
Proof.
  unfold Microsoft._parse_microsoft_contact.
  set (emails := flat_map _ (Microsoft.emailAddresses contact)).
  assert (Hemails :
            emails = [] <->
            Forall (fun email => Py.truthy (Microsoft.address email) = false)
              (Microsoft.emailAddresses contact)).
  { unfold emails. rewrite flat_map_nil_iff.
    split; intros H; eapply Forall_impl; try exact H.
    - intros email. cbv beta.
      now destruct (Py.truthy (Microsoft.address email)).
    - intros email Hf. cbv beta. now rewrite Hf. }
  cbn [flat_map]. rewrite app_nil_r.
  rewrite <- Hemails, <- !phones_of_nil_iff.
  destruct emails as [|i emails];
    destruct (Microsoft.phones_of (Microsoft.businessPhones contact));
    destruct (Microsoft.phones_of (Microsoft.homePhones contact));
    destruct (Microsoft.phones_of (Microsoft.mobilePhone contact));
    cbn; split; try discriminate; try tauto;
    intros (H1 & H2 & H3 & H4); discriminate.
Qed.

Lemma google_params_selector (sync_token next_page_token : option string) :
  let r := Google.build_params sync_token next_page_token in
  Google.p_resourceName r = "people/me"
  /\ Google.p_pageSize r = 100%Z
  /\ Derived.one_selector r.
Proof.
  unfold Google.build_params, Derived.one_selector.
  destruct (Py.truthy sync_token) eqn:S; cbn.
  - repeat split. left. now repeat split.
  - destruct (Py.truthy next_page_token) eqn:N; cbn; repeat split.
    + right. left. now repeat split.
    + right. right. now repeat split.
Qed.

Lemma google_loop_requests (P : Google.ListParams -> Prop)
    (script : list (Result Google.ListResponse)) :
  (forall st npt, P (Google.build_params st npt)) ->
  forall sync_token next_page_token contacts,
    Forall P
      (fst (Google.contacts_loop sync_token next_page_token contacts script)).
Proof.
  intros HP.
  induction script as [|[response|e] script IH]; intros st npt contacts;
    cbn [Google.contacts_loop].
  - constructor; [apply HP|constructor].
  - destruct (Py.truthy (Google.nextPageToken response)).
    + specialize (IH st (Google.nextPageToken response)
                    (Google.process_connections contacts
                       (Google.connections response))).
      destruct (Google.contacts_loop _ _ _ script) as [reqs out].
      constructor; [apply HP|exact IH].
    + constructor; [apply HP|constructor].
  - destruct (Google.is_gone e && Py.truthy st).
    + specialize (IH None None []).
      destruct (Google.contacts_loop _ _ _ script) as [reqs out].
      constructor; [apply HP|exact IH].
    + constructor; [apply HP|constructor].
Qed.

(** X13.  Every request that [get_contacts] of the Google variant sends,
    before or after a restart, lists ["people/me"] by pages of 100 and
    carries exactly one of a sync token, a page token and the request for
    a new sync token. *)
Theorem google_requests_select_one (sync_token : option string)
    (script : list (Result Google.ListResponse)) :
  Forall (fun r => Google.p_resourceName r = "people/me"
                   /\ Google.p_pageSize r = 100%Z
                   /\ Derived.one_selector r)
    (fst (Google.get_contacts sync_token script)).
Proof.
  unfold Google.get_contacts.
  pose proof (google_loop_requests
                (fun r => Google.p_resourceName r = "people/me"
                          /\ Google.p_pageSize r = 100%Z
                          /\ Derived.one_selector r)
                script google_params_selector sync_token None []) as H.
  now destruct (Google.contacts_loop sync_token None [] script).
Qed.

(** ** Gmail messages *)

Lemma get_setitem {V} (d : Py.dict V) (n k : string) (v : V) :
  Py.get (Py.setitem d n v) k
  = if (n =? k)%string then Some v else Py.get d k.
Proof.
  induction d as [|[k' v'] d IH]; cbn [Py.setitem Py.get].
  - reflexivity.
  - destruct (String.eqb_spec k' n) as [->|Hne]; cbn [Py.get].
    + now destruct (n =? k)%string.
    + rewrite IH.
      destruct (String.eqb_spec k' k) as [->|Hk]; [|reflexivity].
      destruct (String.eqb_spec n k) as [->|_]; [contradiction|reflexivity].
Qed.

Lemma header_dict_lookup (k : string) (hs : list Google.Header) :
  forall d d',
    Google.header_dict_of hs d = Ok d' ->
    Py.get d' k
    = fold_left
        (fun found h =>
           match Google.h_name h with
           | Some n => if (n =? k)%string then Google.h_value h else found
           | None => found
           end)
        hs (Py.get d k).
Proof.
  induction hs as [|h hs IH]; intros d d'; cbn [Google.header_dict_of fold_left].
  - now intros [= <-].
  - destruct (Google.h_name h) as [n|]; [|discriminate].
    destruct (Google.h_value h) as [v|]; [|discriminate].
    cbn [getitem bind]. intros H. rewrite (IH _ _ H), get_setitem.
    reflexivity.
Qed.

(** X14.  The [from], [to], [subject] and [date] of a parsed Gmail
    message are the values of the last headers called [From], [To],
    [Subject] and [Date], names compared as they are written, and [None]
    when there is no such header. *)
Theorem gmail_headers_last_wins (b64decode_utf8 : string -> Result string)
    (message : Google.Message) (email : Google.Email) :
  Google._parse_gmail_message b64decode_utf8 message = Ok email ->
  exists pl,
    Google.payload message = Some pl
    /\ Google.e_from email = Derived.last_header "From" (Google.headers pl)
    /\ Google.e_to email = Derived.last_header "To" (Google.headers pl)
    /\ Google.e_subject email
       = Derived.last_header "Subject" (Google.headers pl)
    /\ Google.e_date email = Derived.last_header "Date" (Google.headers pl).
Proof.
  unfold Google._parse_gmail_message.
  destruct (Google.payload message) as [pl|]; [|discriminate].
  cbn [getitem bind].
  destruct (Google.header_dict_of (Google.headers pl) []) as [hd|e] eqn:H;
    [|discriminate].
  cbn [bind].
  destruct (Google._extract_message_body b64decode_utf8 pl) as [txt|e];
    [|discriminate].
  cbn [bind].
  destruct (Google.message_id message) as [i|]; [|discriminate].
  cbn [getitem bind]. intros [= <-]. exists pl. cbn.
  unfold Derived.last_header.
  now rewrite !(header_dict_lookup _ _ _ _ H).
Qed.

Lemma gmail_headers_last_wins_witness :
  exists pl,
    Google.payload Examples.html_message = Some pl
    /\ Google.e_from Examples.html_email
       = Derived.last_header "From" (Google.headers pl)
    /\ Google.e_to Examples.html_email
       = Derived.last_header "To" (Google.headers pl)
    /\ Google.e_subject Examples.html_email
       = Derived.last_header "Subject" (Google.headers pl)
    /\ Google.e_date Examples.html_email
       = Derived.last_header "Date" (Google.headers pl).
Proof.
  apply (gmail_headers_last_wins (Adapter.b64decode_utf8 Examples.env)
           Examples.html_message Examples.html_email).
  reflexivity.
Defined.

Lemma body_without_plain_text (b64decode_utf8 : string -> Result string)
    (ps : list Google.MessagePart) :
  Forall (fun part => exists mt, Google.mimeType part = Some mt
                                 /\ mt <> "text/plain") ps ->
  forall acc, Google.body_of_parts b64decode_utf8 acc ps = Ok acc.
Proof.
  induction 1 as [|part ps (mt & Hmt & Hne) _ IH]; intros acc;
    cbn [Google.body_of_parts]; [reflexivity|].
  rewrite Hmt. cbn [getitem bind].
  apply String.eqb_neq in Hne. now rewrite Hne.
Qed.

(** X15.  A payload with parts of which none directly below it is of type
    [text/plain] has the empty body, whatever data the payload or deeper
    parts hold. *)
Theorem gmail_body_needs_plain_text_part
    (b64decode_utf8 : string -> Result string)
    (pl : Google.MessagePart) (ps : list Google.MessagePart) :
  Google.parts pl = Some ps ->
  Forall (fun part => exists mt, Google.mimeType part = Some mt
                                 /\ mt <> "text/plain") ps ->
  Google._extract_message_body b64decode_utf8 pl = Ok "".
Proof.
  intros Hps Hparts. unfold Google._extract_message_body. rewrite Hps.
  now apply body_without_plain_text.
Qed.

Lemma gmail_body_needs_plain_text_part_witness :
  Google._extract_message_body (Adapter.b64decode_utf8 Examples.env)
    Examples.html_payload
  = Ok "".
Proof.
  apply (gmail_body_needs_plain_text_part _ Examples.html_payload
           [Examples.html_part; Examples.pdf_part]).
  - reflexivity.
  - constructor; [exists "text/html"; split; [reflexivity|discriminate]|].
    constructor; [exists "application/pdf"; split; [reflexivity|discriminate]|].
    constructor.
Defined.

(** X16.  When a parsed Gmail message has [has_attachments] set, some part
    below its payload carries a non-empty filename. *)
Theorem gmail_has_attachments_sound
    (b64decode_utf8 : string -> Result string)
    (message : Google.Message) (email : Google.Email) :
  Google._parse_gmail_message b64decode_utf8 message = Ok email ->
  Google.e_has_attachments email = true ->
  exists pl,
    Google.payload message = Some pl
    /\ Google.subpart_carries_filename pl = true.
Proof.
  unfold Google._parse_gmail_message.
  destruct (Google.payload message) as [pl|]; [|discriminate].
  cbn [getitem bind].
  destruct (Google.header_dict_of (Google.headers pl) []) as [hd|e];
    [|discriminate].
  cbn [bind].
  destruct (Google._extract_message_body b64decode_utf8 pl) as [txt|e];
    [|discriminate].
  cbn [bind].
  destruct (Google.message_id message) as [i|]; [|discriminate].
  cbn [getitem bind]. intros [= <-]. cbn [Google.e_has_attachments].
  intros Hscan. exists pl. split; [reflexivity|].
  unfold Google.subpart_carries_filename.
  destruct (Google.parts pl) as [ps|]; [|discriminate].
  apply scan_parts_iff in Hscan as (part & Hin & Hfile).
  apply existsb_exists. exists part. split; [exact Hin|].
  unfold Google.names_a_file in Hfile. apply andb_true_iff in Hfile as [Hf _].
  destruct part; cbn in Hf |- *. now rewrite Hf.
Qed.

Lemma gmail_has_attachments_sound_witness :
  exists pl,
    Google.payload Examples.flat_message = Some pl
    /\ Google.subpart_carries_filename pl = true.
Proof.
  apply (gmail_has_attachments_sound (Adapter.b64decode_utf8 Examples.env)
           Examples.flat_message (Examples.email_of true));
    reflexivity.
Defined.

Lemma append_assoc (a b c : string) :
  ((a ++ b) ++ c)%string = (a ++ (b ++ c))%string.
Proof. induction a as [|x a IH]; cbn; [reflexivity|now rewrite IH]. Qed.

Lemma append_nil_r (a : string) : (a ++ "")%string = a.
Proof. induction a as [|x a IH]; cbn; [reflexivity|now rewrite IH]. Qed.

Lemma body_of_plain_parts (b64decode_utf8 : string -> Result string)
    (decode : string -> string) (ps : list Google.MessagePart) :
  Forall (fun part => exists mt,
              Google.mimeType part = Some mt
              /\ (mt = "text/plain" -> Google.body part <> None)) ps ->
  (forall d, In d (Derived.plain_data ps) ->
             b64decode_utf8 d = Ok (decode d)) ->
  forall acc,
    Google.body_of_parts b64decode_utf8 acc ps
    = Ok (acc ++ fold_right String.append ""
                   (map decode (Derived.plain_data ps)))%string.
Proof.
  induction 1 as [|part ps (mt & Hmt & Hbody) _ IH]; intros Hdec acc;
    cbn [Google.body_of_parts].
  - cbn. now rewrite append_nil_r.
  - unfold Derived.plain_data in Hdec |- *. cbn [flat_map] in Hdec |- *.
    fold (Derived.plain_data ps) in Hdec |- *.
    rewrite Hmt in Hdec |- *. cbn [getitem bind].
    destruct (String.eqb_spec mt "text/plain") as [Hplain|Hother].
    + destruct (Google.body part) as [b|]; [|now elim (Hbody Hplain)].
      cbn [getitem bind].
      destruct (Google.data b) as [d|]; [|cbn [Py.truthy]].
      * destruct (Py.truthy (Some d)) eqn:Hd.
        -- cbn [getitem bind app map fold_right] in Hdec |- *.
           rewrite (Hdec d (or_introl eq_refl)). cbn [bind].
           rewrite IH by (intros d' Hd'; apply Hdec; now right).
           now rewrite append_assoc.
        -- cbn [app] in Hdec |- *. now apply IH.
      * cbn [app] in Hdec |- *. now apply IH.
    + destruct (Google.body part); cbn [app] in Hdec |- *; now apply IH.
Qed.

(** X17.  When every part directly below the payload names its type, the
    [text/plain] ones have a body, and their data decode, the body of the
    message is the decoded texts of the [text/plain] parts with data, put
    together in the order of the parts. *)
Theorem gmail_body_is_plain_text_in_order
    (b64decode_utf8 : string -> Result string) (decode : string -> string)
    (pl : Google.MessagePart) (ps : list Google.MessagePart) :
  Google.parts pl = Some ps ->
  Forall (fun part => exists mt,
              Google.mimeType part = Some mt
              /\ (mt = "text/plain" -> Google.body part <> None)) ps ->
  (forall d, In d (Derived.plain_data ps) ->
             b64decode_utf8 d = Ok (decode d)) ->
  Google._extract_message_body b64decode_utf8 pl
  = Ok (fold_right String.append "" (map decode (Derived.plain_data ps))).
Proof.
  intros Hps Hparts Hdec. unfold Google._extract_message_body. rewrite Hps.
  now rewrite (body_of_plain_parts _ decode ps Hparts Hdec).
Qed.

Lemma gmail_body_is_plain_text_in_order_witness :
  Google._extract_message_body (Adapter.b64decode_utf8 Examples.env)
    {| Google.filename := Some "";
       Google.mimeType := Some "multipart/mixed";
       Google.body := None;
       Google.headers := [];
       Google.parts :=
         Some [Examples.text_part; Examples.pdf_part; Examples.text_part] |}
  = Ok "HelloHello".
Proof.
  apply (gmail_body_is_plain_text_in_order
           (Adapter.b64decode_utf8 Examples.env) (fun _ => "Hello")
           {| Google.filename := Some "";
              Google.mimeType := Some "multipart/mixed";
              Google.body := None;
              Google.headers := [];
              Google.parts :=
                Some [Examples.text_part; Examples.pdf_part;
                      Examples.text_part] |}
           [Examples.text_part; Examples.pdf_part; Examples.text_part]).
  - reflexivity.
  - repeat constructor;
      (eexists; split; [reflexivity|intros _; discriminate]).
  - intros d [<-|[<-|[]]]; reflexivity.
Defined.

(** ** Subscriptions *)

(** X18.  Whatever Graph answers, [subscribe_to_realtime_events] of the
    Microsoft variant draws one client state and then posts the message
    subscription, and after it at most the event subscription; both bodies
    carry the caller's notification URL, that client state and the
    expiration three days ahead, and nothing of [user_id]. *)
Theorem microsoft_subscribe_effects
    (generate_client_state : nat -> string) (in_three_days : string)
    (user_id notification_url : string)
    (script : list (Result Microsoft.SubscriptionJson)) :
  let client_state := generate_client_state 0 in
  let body resource change_types :=
    {| Microsoft.b_changeType := String.concat "," change_types;
       Microsoft.b_notificationUrl := notification_url;
       Microsoft.b_resource := resource;
       Microsoft.b_expirationDateTime := (in_three_days ++ "Z")%string;
       Microsoft.b_clientState := client_state;
       Microsoft.b_latestSupportedTlsVersion := "v1_2" |} in
  let email_post :=
    Microsoft.Post "https://graph.microsoft.com/v1.0/subscriptions"
      (body "/me/messages" ["created"; "updated"]) in
  let calendar_post :=
    Microsoft.Post "https://graph.microsoft.com/v1.0/subscriptions"
      (body "/me/events" ["created"; "updated"; "deleted"]) in
  let effects :=
    fst (Microsoft.subscribe_to_realtime_events generate_client_state
           in_three_days user_id notification_url script) in
  effects = [Microsoft.Generate client_state; email_post]
  \/ effects = [Microsoft.Generate client_state; email_post; calendar_post].
Proof.
  cbv zeta.
  unfold Microsoft.subscribe_to_realtime_events, Microsoft.create_both.
  destruct script as [|reply script]; [now left|].
  destruct (Microsoft._create_subscription _ reply); [|now left].
  destruct script as [|reply' script]; [now right|].
  destruct (Microsoft._create_subscription _ reply'); now right.
Qed.

(** X19.  When [subscribe_to_realtime_events] of the Google variant
    raises, either the Gmail watch was refused and the Calendar watch was
    never asked for, or the Gmail watch was granted and the Calendar watch
    refused; the caller gets the translated failure only. *)
Theorem google_subscribe_failure (settings : Google.Settings)
    (uuid4 user_id : string) (notification_url : option string)
    (script : list (Result Google.WatchResponse))
    (reqs : list Google.WatchRequest) (e : PyExc) :
  Google.subscribe_to_realtime_events settings uuid4 user_id notification_url
    script
  = (reqs, Raised e) ->
  exists e0,
    e = Integration {| message := ("Failed to subscribe: " ++ str e0)%string;
                       provider := "google_workspace";
                       operation := Some "subscribe_to_realtime_events" |}
    /\ ((exists rest,
           script = Err e0 :: rest
           /\ reqs = [Google.gmail_watch_request settings])
        \/ (exists gmail_watch rest,
              script = Ok gmail_watch :: Err e0 :: rest
              /\ reqs = [Google.gmail_watch_request settings;
                         Google.calendar_watch_request settings uuid4
                           user_id])).
Proof.
  unfold Google.subscribe_to_realtime_events, Google.watch_both.
  destruct script as [|[gmail_watch|e0] script]; try discriminate.
  - destruct script as [|[calendar_watch|e0] script]; try discriminate.
    cbn. intros [= <- <-]. exists e0. split; [reflexivity|].
    right. now exists gmail_watch, script.
  - cbn. intros [= <- <-]. exists e0. split; [reflexivity|].
    left. now exists script.
Qed.

Lemma google_subscribe_failure_witness :
  exists e0,
    Integration {| message := "Failed to subscribe: quota exceeded";
                   provider := "google_workspace";
                   operation := Some "subscribe_to_realtime_events" |}
    = Integration {| message := ("Failed to subscribe: " ++ str e0)%string;
                     provider := "google_workspace";
                     operation := Some "subscribe_to_realtime_events" |}
    /\ ((exists rest,
           [Ok Examples.gmail_watch; Err (HttpError 403 "quota exceeded")]
           = Err e0 :: rest
           /\ [Google.gmail_watch_request (Adapter.settings Examples.env);
               Google.calendar_watch_request (Adapter.settings Examples.env)
                 (Adapter.uuid4 Examples.env) "user-1"]
              = [Google.gmail_watch_request (Adapter.settings Examples.env)])
        \/ (exists gmail_watch rest,
              [Ok Examples.gmail_watch; Err (HttpError 403 "quota exceeded")]
              = Ok gmail_watch :: Err e0 :: rest
              /\ [Google.gmail_watch_request (Adapter.settings Examples.env);
                  Google.calendar_watch_request
                    (Adapter.settings Examples.env)
                    (Adapter.uuid4 Examples.env) "user-1"]
                 = [Google.gmail_watch_request
                      (Adapter.settings Examples.env);
                    Google.calendar_watch_request
                      (Adapter.settings Examples.env)
                      (Adapter.uuid4 Examples.env) "user-1"])).
Proof.
  apply (google_subscribe_failure (Adapter.settings Examples.env)
           (Adapter.uuid4 Examples.env) "user-1" None
           [Ok Examples.gmail_watch; Err (HttpError 403 "quota exceeded")]).
  reflexivity.
Defined.

Lemma create_subscription_ok (client_state : string)
    (reply : Result Microsoft.SubscriptionJson) (s : Microsoft.Subscription) :
  Microsoft._create_subscription client_state reply = Ok s ->
  exists j,
    reply = Ok j
    /\ Microsoft.j_id j = Some (Microsoft.sub_id s)
    /\ Microsoft.j_resource j = Some (Microsoft.sub_resource s)
    /\ Microsoft.j_expirationDateTime j
       = Some (Microsoft.sub_expirationDateTime s).
Proof.
  destruct reply as [j|e]; [|discriminate]. cbn.
  destruct (Microsoft.j_id j) as [i|] eqn:Hi; [|discriminate].
  destruct (Microsoft.j_resource j) as [r|] eqn:Hr; [|discriminate].
  destruct (Microsoft.j_expirationDateTime j) as [x|] eqn:Hx; [|discriminate].
  cbn. intros [= <-]. exists j. cbn. now repeat split.
Qed.

(** X20.  [subscribe_to_realtime_events] of the Microsoft variant returns
    only when Graph answered both POSTs with a subscription that has an
    [id], a [resource] and an [expirationDateTime]; the returned records
    carry those values of Graph, the expiration included, not the ones
    that were asked for. *)
Theorem microsoft_subscribe_returns_graph_answers
    (generate_client_state : nat -> string) (in_three_days : string)
    (user_id notification_url : string)
    (script : list (Result Microsoft.SubscriptionJson))
    (effects : list Microsoft.Effect) (subs : Microsoft.Subscriptions) :
  Microsoft.subscribe_to_realtime_events generate_client_state in_three_days
    user_id notification_url script
  = (effects, Returned subs) ->
  exists j1 j2 rest,
    script = Ok j1 :: Ok j2 :: rest
    /\ Microsoft.j_id j1 = Some (Microsoft.sub_id (Microsoft.email subs))
    /\ Microsoft.j_resource j1
       = Some (Microsoft.sub_resource (Microsoft.email subs))
    /\ Microsoft.j_expirationDateTime j1
       = Some (Microsoft.sub_expirationDateTime (Microsoft.email subs))
    /\ Microsoft.j_id j2 = Some (Microsoft.sub_id (Microsoft.calendar subs))
    /\ Microsoft.j_resource j2
       = Some (Microsoft.sub_resource (Microsoft.calendar subs))
    /\ Microsoft.j_expirationDateTime j2
       = Some (Microsoft.sub_expirationDateTime (Microsoft.calendar subs)).
Proof.
  unfold Microsoft.subscribe_to_realtime_events, Microsoft.create_both.
  destruct script as [|reply script]; [discriminate|].
  destruct (Microsoft._create_subscription _ reply) as [s1|e] eqn:E1;
    [|discriminate].
  destruct script as [|reply' script]; [discriminate|].
  destruct (Microsoft._create_subscription _ reply') as [s2|e] eqn:E2;
    [|discriminate].
  cbn [translate]. intros [= <- <-].
  apply create_subscription_ok in E1 as (j1 & -> & H1 & H2 & H3).
  apply create_subscription_ok in E2 as (j2 & -> & H4 & H5 & H6).
  exists j1, j2, script. cbn. now repeat split.
Qed.

Lemma microsoft_subscribe_returns_graph_answers_witness :
  exists j1 j2 rest,
    [Ok Examples.email_subscription; Ok Examples.calendar_subscription]
    = Ok j1 :: Ok j2 :: rest
    /\ Microsoft.j_id j1 = Some "sub-mail"
    /\ Microsoft.j_resource j1 = Some "/me/messages"
    /\ Microsoft.j_expirationDateTime j1 = Some "2026-01-04T00:00:00Z"
    /\ Microsoft.j_id j2 = Some "sub-cal"
    /\ Microsoft.j_resource j2 = Some "/me/events"
    /\ Microsoft.j_expirationDateTime j2 = Some "2026-01-04T00:00:00Z".
Proof.
  apply (microsoft_subscribe_returns_graph_answers
           (fun _ => "state-0") "2026-02-01T00:00:00"
           "user-1" "https://apex.example/hook"
           [Ok Examples.email_subscription; Ok Examples.calendar_subscription]
           (fst (Microsoft.subscribe_to_realtime_events
                   (fun _ => "state-0") "2026-02-01T00:00:00"
                   "user-1" "https://apex.example/hook"
                   [Ok Examples.email_subscription;
                    Ok Examples.calendar_subscription]))
           {| Microsoft.email :=
                {| Microsoft.sub_id := "sub-mail";
                   Microsoft.sub_resource := "/me/messages";
                   Microsoft.sub_expirationDateTime := "2026-01-04T00:00:00Z";
                   Microsoft.sub_clientState := "state-0" |};
              Microsoft.calendar :=
                {| Microsoft.sub_id := "sub-cal";
                   Microsoft.sub_resource := "/me/events";
                   Microsoft.sub_expirationDateTime := "2026-01-04T00:00:00Z";
                   Microsoft.sub_clientState := "state-0" |} |}).
  reflexivity.
Defined.

(** ** Objects without an id *)

(** X21.  An event or a Graph message that the provider sends without its
    ["id"] is an error of the fetch, not a record with an empty id: the
    caller gets the [KeyError] translated, on the Microsoft variant through
    the handler for other exceptions. *)
Theorem fetch_without_id_raises (event_id email_id : string)
    (google_event : Google.Event) (graph_event : Microsoft.GraphEvent)
    (graph_message : Microsoft.GraphMessage)
    (rest1 : list (Result Google.Event))
    (rest2 : list (Result Microsoft.GraphEvent))
    (rest3 : list (Result Microsoft.GraphMessage)) :
  Google.event_id google_event = None ->
  Microsoft.ev_id graph_event = None ->
  Microsoft.m_id graph_message = None ->
  snd (Google.get_calendar_event event_id (Ok google_event :: rest1))
  = Raised (Integration {| message := "Failed to fetch event: 'id'";
                           provider := "google_workspace";
                           operation := Some "get_calendar_event" |})
  /\ snd (Microsoft.get_calendar_event event_id (Ok graph_event :: rest2))
     = Raised (Integration {| message := "Failed to fetch event: 'id'";
                              provider := "microsoft_365";
                              operation := Some "get_calendar_event" |})
  /\ snd (Microsoft.get_email_content email_id (Ok graph_message :: rest3))
     = Raised (Integration {| message := "Failed to fetch email: 'id'";
                              provider := "microsoft_365";
                              operation := Some "get_email_content" |}).
Proof.
  intros H1 H2 H3.
  unfold Google.get_calendar_event, Microsoft.get_calendar_event,
    Microsoft.get_email_content, Google.parse_event, Microsoft.parse_event,
    Microsoft.parse_message.
  cbn [snd bind]. now rewrite H1, H2, H3.
Qed.

Lemma fetch_without_id_raises_witness :
  snd (Google.get_calendar_event "ev-1" [Ok Examples.anonymous_event])
  = Raised (Integration {| message := "Failed to fetch event: 'id'";
                           provider := "google_workspace";
                           operation := Some "get_calendar_event" |})
  /\ snd (Microsoft.get_calendar_event "ev-1"
            [Ok Examples.anonymous_graph_event])
     = Raised (Integration {| message := "Failed to fetch event: 'id'";
                              provider := "microsoft_365";
                              operation := Some "get_calendar_event" |})
  /\ snd (Microsoft.get_email_content "msg-1"
            [Ok Examples.anonymous_graph_message])
     = Raised (Integration {| message := "Failed to fetch email: 'id'";
                              provider := "microsoft_365";
                              operation := Some "get_email_content" |}).
Proof.
  apply (fetch_without_id_raises "ev-1" "msg-1" Examples.anonymous_event
           Examples.anonymous_graph_event Examples.anonymous_graph_message
           [] [] []);
    reflexivity.
Defined.
